(** * SDFormatter: the safety gate, the policy engine and the formatting pipeline

    A shallow embedding of the three front ends of the repository:
    - [sdFormatterTerminal-English.py]  (variant [English]),
    - [sdFormatterTerminal-Italian.py]  (variant [Italian]),
    - [sdFormatterGUI.py]               (module [Gui], the worker's policy part).

    Conventions.
    - A Python [str] is a [string]; a character is read as the code point
      0..255.  The [str] methods below follow CPython on that range.
    - A Python [int] is a [Z].  The sources compute [gb = bytes_size / 2^30] in
      floating point and compare it with 4, 8, 16, 32, 64 and 256.  CPython
      rounds the exact quotient to the nearest float and raises
      [OverflowError] when the rounded quotient is beyond the largest float,
      that is from magnitude 2^1024 - 2^970 of the quotient on
      ([gb_overflows]).  Below that the division by a power of two is exact
      under 2^53 and rounds monotonically above, so [gb <= k] is
      [bytes_size <= k * 2^30].
    - The size of a disk in the catalogue is the [Size] that Get-Disk
      reports, an unsigned 64-bit number.  [suggest_fs] and
      [suggest_cluster] are modelled on every [int]; the pipeline reads the
      file system for AUTO as [fs_by_size], the value [suggest_fs] returns on
      every size it returns on (lemma [suggest_fs_returns]).
    - PowerShell scripts are assembled from a fixed text and a few parameters;
      a script is a constructor of [Cmd] carrying those parameters.
    - The operating system is an oracle [spawn] over an abstract [World];
      every spawned process is appended to a trace.
    - [logger] calls, [print] and [time.time] only write out and are left out,
      together with the display-only entries of the dictionaries
      ([bus_type], [friendly_name], [unique_id], [partitions], [app],
      [version], [duration_sec]). *)

From Stdlib Require Import ZArith List String Ascii Bool Lia DecimalString.
Import ListNotations.
Open Scope string_scope.
Open Scope Z_scope.

(** ** Python strings *)

Module PyStr.

Definition code (c : ascii) : nat := nat_of_ascii c.

Definition between (lo hi : nat) (c : ascii) : bool :=
  (Nat.leb lo (code c) && Nat.leb (code c) hi)%bool.

Definition chr (n : nat) : ascii := ascii_of_nat n.

Definition dquote : ascii := chr 34.
Definition squote : ascii := chr 39.
Definition TAB : ascii := chr 9.
Definition LF : ascii := chr 10.
Definition CR : ascii := chr 13.

(** [str.isspace] for one character: TAB..CR, FS..US, space, NEL, NBSP. *)
Definition is_space (c : ascii) : bool :=
  (between 9 13 c || between 28 32 c
   || Nat.eqb (code c) 133 || Nat.eqb (code c) 160)%bool.

Fixpoint mem (c : ascii) (chars : string) : bool :=
  match chars with
  | EmptyString => false
  | String d r => (Ascii.eqb c d || mem c r)%bool
  end.

Definition is_empty (s : string) : bool :=
  match s with EmptyString => true | _ => false end.

(** [s.lstrip(...)], [s.rstrip(...)] and [s.strip(...)] for a class [p]. *)
Fixpoint lstrip_by (p : ascii -> bool) (s : string) : string :=
  match s with
  | EmptyString => EmptyString
  | String c r => if p c then lstrip_by p r else s
  end.

Fixpoint rstrip_by (p : ascii -> bool) (s : string) : string :=
  match s with
  | EmptyString => EmptyString
  | String c r =>
      let r' := rstrip_by p r in
      if (p c && is_empty r')%bool then EmptyString else String c r'
  end.

Definition strip_by (p : ascii -> bool) (s : string) : string :=
  rstrip_by p (lstrip_by p s).

(** [s.strip()] *)
Definition strip (s : string) : string := strip_by is_space s.

(** [s.strip(chars)] *)
Definition strip_chars (chars s : string) : string :=
  strip_by (fun c => mem c chars) s.

Fixpoint filter (p : ascii -> bool) (s : string) : string :=
  match s with
  | EmptyString => EmptyString
  | String c r => if p c then String c (filter p r) else filter p r
  end.

Fixpoint map (f : ascii -> ascii) (s : string) : string :=
  match s with
  | EmptyString => EmptyString
  | String c r => String (f c) (map f r)
  end.

(** [s.replace(c, "")] for a one-character [c]. *)
Definition remove (c : ascii) (s : string) : string :=
  filter (fun d => negb (Ascii.eqb d c)) s.

(** [s[:n]] *)
Fixpoint prefix_n (n : nat) (s : string) : string :=
  match n, s with
  | O, _ => EmptyString
  | S _, EmptyString => EmptyString
  | S k, String c r => String c (prefix_n k r)
  end.

(** [c.upper()].  Small letters a-z and the accented small letters get
    their capital; sharp s becomes the two letters SS.  The capitals of
    the micro sign and of y-diaeresis lie above 255; both stay as they
    are here: every use below compares the result with an ASCII word or
    replaces whatever is outside [A-Z0-9 _], and neither tells the small
    letter from its capital. *)
Definition upper_char (c : ascii) : string :=
  if (between 97 122 c || between 224 246 c || between 248 254 c)%bool
  then String (chr (code c - 32)) EmptyString
  else if Nat.eqb (code c) 223 then "SS"
  else String c EmptyString.

Fixpoint upper (s : string) : string :=
  match s with
  | EmptyString => EmptyString
  | String c r => upper_char c ++ upper r
  end.

(** [c.lower()] *)
Definition lower_char (c : ascii) : ascii :=
  if (between 65 90 c || between 192 214 c || between 216 222 c)%bool
  then chr (code c + 32) else c.

Definition lower (s : string) : string := map lower_char s.

(** [s.startswith(p)] *)
Fixpoint startswith (p s : string) : bool :=
  match p, s with
  | EmptyString, _ => true
  | String _ _, EmptyString => false
  | String a p', String b s' => (Ascii.eqb a b && startswith p' s')%bool
  end.

(** [re.sub(r"\s+", " ", s)]: every maximal run of white space becomes
    one blank. *)
Fixpoint collapse_ws_from (in_run : bool) (s : string) : string :=
  match s with
  | EmptyString => EmptyString
  | String c r =>
      if is_space c
      then if in_run then collapse_ws_from true r
           else String " "%char (collapse_ws_from true r)
      else String c (collapse_ws_from false r)
  end.

Definition collapse_ws (s : string) : string := collapse_ws_from false s.

(** Line boundaries of [str.splitlines]: LF, VT, FF, CR, FS, GS, RS, NEL. *)
Definition is_linebreak (c : ascii) : bool :=
  (between 10 13 c || between 28 30 c || Nat.eqb (code c) 133)%bool.

(** The lines of [s], the last one being the line still open at the end
    of the text; LF right after CR belongs to the same boundary. *)
Fixpoint lines_open (after_cr : bool) (s : string) : list string :=
  match s with
  | EmptyString => [EmptyString]
  | String c r =>
      if (after_cr && Ascii.eqb c LF)%bool then lines_open false r
      else if is_linebreak c then EmptyString :: lines_open (Ascii.eqb c CR) r
      else match lines_open false r with
           | l :: ls => String c l :: ls
           | [] => [String c EmptyString]
           end
  end.

(** [s.splitlines()]: an open last line counts only when it is not empty. *)
Definition splitlines (s : string) : list string :=
  let ls := lines_open false s in
  match List.last ls "x" with
  | EmptyString => List.removelast ls
  | _ => ls
  end.

(** [s.split(sep, 1)] for a one-character [sep]: [None] when [sep] does
    not occur, else the text before and after its first occurrence. *)
Fixpoint split_once (sep : ascii) (s : string) : option (string * string) :=
  match s with
  | EmptyString => None
  | String c r =>
      if Ascii.eqb c sep then Some (EmptyString, r)
      else match split_once sep r with
           | Some (a, b) => Some (String c a, b)
           | None => None
           end
  end.

(** First word of [s.split()]: [None] when [s] holds white space only. *)
Fixpoint take_word (s : string) : string :=
  match s with
  | EmptyString => EmptyString
  | String c r => if is_space c then EmptyString else String c (take_word r)
  end.

Definition first_word (s : string) : option string :=
  match lstrip_by is_space s with
  | EmptyString => None
  | w => Some (take_word w)
  end.

(** [str(n)] for an [int] *)
Definition of_int (n : Z) : string := NilZero.string_of_int (Z.to_int n).

End PyStr.

(** ** Safety gate and policy engine (the two command-line front ends) *)

Inductive Variant := English | Italian.

Inductive ExnClass :=
| PSError | ValueError | PermissionError | RuntimeError | TypeError
| KeyError | AttributeError | IndexError | JSONDecodeError | OverflowError.

(** A raised exception: its class and [str(e)]. *)
Record Exn := mkExn { exn_class : ExnClass; exn_msg : string }.

Inductive Outcome (A : Type) :=
| Ok (a : A)
| Raise (e : Exn).
Arguments Ok {A} a.
Arguments Raise {A} e.

(** One entry of [list_disks]. *)
Record DiskRecord := mkDisk {
  number : Z;
  size : Z;
  is_system : bool;
  is_boot : bool;
  is_readonly : bool;
  letters : list string
}.

Definition GiB : Z := 1024 ^ 3.
Definition MiB64 : Z := 64 * 1024 * 1024.

Module Msg.
Definition e_grave : string := String (PyStr.chr 232) EmptyString.

Definition system_disk (v : Variant) : string :=
  match v with
  | English => "Safety lock: selected disk appears to be a system/boot disk."
  | Italian => "Protezione attiva: il disco selezionato risulta di sistema/boot."
  end.

Definition readonly_disk (v : Variant) : string :=
  match v with
  | English => "The disk is read-only. Disable write protection and try again."
  | Italian => "Il disco " ++ e_grave ++
      " in sola lettura. Rimuovi l'interruttore di protezione scrittura e riprova."
  end.

Definition too_small : string := "Disk is too small to format (less than 64 MB).".

Definition not_found (v : Variant) (n : Z) : string :=
  match v with
  | English => "Disk #" ++ PyStr.of_int n ++ " not found."
  | Italian => "Disco #" ++ PyStr.of_int n ++ " non trovato."
  end.

Definition bad_cluster : string := "Cluster size must be a positive integer.".

Definition confirm_mismatch (v : Variant) : string :=
  match v with
  | English => "Confirmation mismatch. Operation cancelled."
  | Italian => "Conferma non valida. Operazione annullata."
  end.

Definition verify_failed (v : Variant) : string :=
  match v with
  | English => "Post-format verification failed."
  | Italian => "Verifica post-format fallita."
  end.

Definition io_failed (v : Variant) (msg : string) : string :=
  match v with
  | English => "I/O test failed: " ++ msg
  | Italian => "Test I/O fallito: " ++ msg
  end.

Definition size_mismatch (v : Variant) (sz total : Z) : string :=
  match v with
  | English => "Size mismatch (read " ++ PyStr.of_int sz ++ " vs written "
               ++ PyStr.of_int total ++ ")"
  | Italian => "Dimensione letta " ++ PyStr.of_int sz ++ " diversa da scritta "
               ++ PyStr.of_int total
  end.

Definition ps_default : string := "PowerShell error".
Definition index_range : string := "list index out of range".
Definition no_skip_verify : string :=
  "'Namespace' object has no attribute 'skip_verify'".
Definition no_letter : string := "No drive letter available".
Definition float_overflow : string := "integer division result too large for a float".
End Msg.

(** [ensure_safe_target]: [None] is the normal return.  The size floor is
    in the English front end only. *)
Definition ensure_safe_target (v : Variant) (disk : DiskRecord) : option Exn :=
  if (is_system disk || is_boot disk)%bool
  then Some (mkExn PermissionError (Msg.system_disk v))
  else if is_readonly disk
  then Some (mkExn PermissionError (Msg.readonly_disk v))
  else match v with
       | English =>
           if (negb (size disk =? 0) && (size disk <? MiB64))%bool
           then Some (mkExn ValueError Msg.too_small)
           else None
       | Italian => None
       end.

(** The least magnitude of [bytes_size] at which [bytes_size / (1024**3)]
    raises [OverflowError]: the quotient 2^1024 - 2^970 lies half way
    between the largest float and 2^1024 and rounds up. *)
Definition float_limit : Z := (2 ^ 1024 - 2 ^ 970) * GiB.

(** Whether [gb = bytes_size / (1024**3)] raises. *)
Definition gb_overflows (bytes_size : Z) : bool :=
  float_limit <=? Z.abs bytes_size.

(** The file system by size: FAT32 up to 32 GiB. *)
Definition fs_by_size (bytes_size : Z) : string :=
  if bytes_size <=? 32 * GiB then "FAT32" else "exFAT".

(** [suggest_fs] *)
Definition suggest_fs (bytes_size : Z) : Outcome string :=
  if gb_overflows bytes_size then Raise (mkExn OverflowError Msg.float_overflow)
  else Ok (fs_by_size bytes_size).

(** [suggest_cluster], the same text in both front ends. *)
Definition suggest_cluster (fs : string) (bytes_size : Z) : Outcome Z :=
  if gb_overflows bytes_size then Raise (mkExn OverflowError Msg.float_overflow)
  else if String.eqb (PyStr.upper fs) "FAT32" then
    if bytes_size <=? 4 * GiB then Ok 4096
    else if bytes_size <=? 8 * GiB then Ok 8192
    else if bytes_size <=? 16 * GiB then Ok 16384
    else Ok 32768
  else
    if bytes_size <=? 64 * GiB then Ok 131072
    else if bytes_size <=? 256 * GiB then Ok 262144
    else Ok 524288.

(** [INVALID_LABEL_CHARS], a raw literal: the backslash is there twice. *)
Definition INVALID_LABEL_CHARS : string :=
  "<>:" ++ String PyStr.dquote "/\\|?*".

(** The class [A-Z0-9 _] of the camera profile. *)
Definition camera_char (c : ascii) : bool :=
  (PyStr.between 65 90 c || PyStr.between 48 57 c
   || Ascii.eqb c " " || Ascii.eqb c "_")%bool.

Definition camera_sub (s : string) : string :=
  PyStr.map (fun c => if camera_char c then c else "_"%char) s.

(** Printable ASCII outside the reserved characters. *)
Definition general_char (c : ascii) : bool :=
  (PyStr.between 32 126 c && negb (PyStr.mem c INVALID_LABEL_CHARS))%bool.

Definition or_default (base : string) : string :=
  if PyStr.is_empty base then "SD_CARD" else base.

(** [sanitize_label]; [fs] is accepted and never read.  The English front
    end drops both quote characters first. *)
Definition sanitize_label (v : Variant) (label : string) (fs : string)
    (camera_compat : bool) : string :=
  let raw :=
    match v with
    | English => PyStr.remove PyStr.dquote (PyStr.remove PyStr.squote (PyStr.strip label))
    | Italian => PyStr.strip label
    end in
  if camera_compat then
    let base := camera_sub (PyStr.upper raw) in
    let base := PyStr.strip (PyStr.collapse_ws base) in
    or_default (PyStr.prefix_n 11 base)
  else
    let base := PyStr.filter general_char raw in
    or_default (PyStr.prefix_n 32 (PyStr.strip_chars ". " base)).

(** ** The administrative command boundary *)

(** The PowerShell scripts of the two command-line front ends, one
    constructor per script text, with the values spliced into it. *)
Inductive Cmd :=
| GetDisk
| GetPartition (disk_number : Z)
| GetVolumeLetters (disk_number : Z)
| DismountVolumes (disk_number : Z)
| DiskpartCleanAll (disk_number : Z)
| ClearAndInitialize (disk_number : Z) (style : string)
| NewPartitionAndFormat (disk_number : Z) (fs label : string)
    (allocation_unit : option Z) (quick : bool)
| GetVolume (drive_letter : string).

Definition is_mutating (c : Cmd) : bool :=
  match c with
  | GetDisk | GetPartition _ | GetVolumeLetters _ | GetVolume _ => false
  | _ => true
  end.

(** [subprocess.CompletedProcess] with captured text. *)
Record CompletedProcess := mkProc {
  returncode : Z;
  stdout : string;
  stderr : string
}.

(** The class [Dummy] of [run_ps]. *)
Definition Dummy : CompletedProcess := mkProc 0 "" "".

#[local] Set Warnings "-register-all".

(** A value decoded by [json.loads]; no float occurs among the selected
    properties, and a dictionary lists each key once. *)
Inductive Json :=
| JNull
| JBool (b : bool)
| JInt (n : Z)
| JStr (s : string)
| JList (items : list Json)
| JDict (entries : list (string * Json)).

(** What the I/O self-test found after writing its file: the size read
    back, or the text of the exception. *)
Inductive FsOutcome :=
| FsWritten (getsize : Z)
| FsError (msg : string).

(** The host: the operating system behind [subprocess.run], [input] and
    the file system, and the library functions the sources call.
    [subprocess.run] is taken to start PowerShell and to come back, and
    [input] to deliver a line. *)
Record Host := mkHost {
  World : Type;
  spawn : World -> Cmd -> CompletedProcess * World;
  read_line : World -> string * World;
  write_test_file : World -> string -> Z -> FsOutcome * World;
  json_loads : string -> string + Json;
  int_of_str : string -> option Z;
  repr : Json -> string
}.

Inductive Event :=
| Spawned (c : Cmd)
| Prompted
| TestFile (drive_letter : string) (size_mb : Z).

Definition event_mutates (e : Event) : bool :=
  match e with
  | Spawned c => is_mutating c
  | Prompted => false
  | TestFile _ _ => true
  end.

(** ** A state and exception monad: the state survives a raise. *)

Definition M (S A : Type) : Type := S -> Outcome A * S.

Definition ret {S A} (a : A) : M S A := fun s => (Ok a, s).
Definition raise {S A} (e : Exn) : M S A := fun s => (Raise e, s).
Definition bind {S A B} (m : M S A) (k : A -> M S B) : M S B :=
  fun s => match m s with
           | (Ok a, s') => k a s'
           | (Raise e, s') => (Raise e, s')
           end.
Definition lift_outcome {S A} (o : Outcome A) : M S A := fun s => (o, s).

Declare Scope py_scope.
Delimit Scope py_scope with py.
Notation "x <- m ;; k" := (bind m (fun x => k))
  (at level 61, m at next level, right associativity) : py_scope.
Notation "m ;;; k" := (bind m (fun _ => k))
  (at level 61, right associativity) : py_scope.
Open Scope py_scope.

(** [for x in xs: body], the results collected. *)
Fixpoint for_each {S A B} (body : A -> M S B) (xs : list A) : M S (list B) :=
  match xs with
  | [] => ret []
  | x :: r => y <- body x ;; ys <- for_each body r ;; ret (y :: ys)
  end.

(** ** Dynamic values *)

Module Py.
Definition type_name (j : Json) : string :=
  match j with
  | JNull => "NoneType" | JBool _ => "bool" | JInt _ => "int"
  | JStr _ => "str" | JList _ => "list" | JDict _ => "dict"
  end.

(** Truth value *)
Definition truthy (j : Json) : bool :=
  match j with
  | JNull => false
  | JBool b => b
  | JInt n => negb (n =? 0)
  | JStr s => negb (PyStr.is_empty s)
  | JList l => match l with [] => false | _ => true end
  | JDict l => match l with [] => false | _ => true end
  end.

(** [x or default] *)
Definition or_else (j default : Json) : Json := if truthy j then j else default.

Fixpoint lookup (k : string) (entries : list (string * Json)) : option Json :=
  match entries with
  | [] => None
  | (k', x) :: r => if String.eqb k k' then Some x else lookup k r
  end.

(** [d.get(k, default)] on a dictionary *)
Definition get (entries : list (string * Json)) (k : string) (default : Json) : Json :=
  match lookup k entries with Some x => x | None => default end.

(** [d[k]] for a text key, on a dictionary and on anything else *)
Definition key_error (k : string) : Exn := mkExn KeyError ("'" ++ k ++ "'").

Definition not_subscriptable (d : Json) : Exn :=
  match d with
  | JStr _ => mkExn TypeError "string indices must be integers, not 'str'"
  | JList _ => mkExn TypeError "list indices must be integers or slices, not str"
  | _ => mkExn TypeError ("'" ++ type_name d ++ "' object is not subscriptable")
  end.

Definition subscript (entries : list (string * Json)) (k : string) : Outcome Json :=
  match lookup k entries with
  | Some x => Ok x
  | None => Raise (key_error k)
  end.

Fixpoint chars (s : string) : list Json :=
  match s with
  | EmptyString => []
  | String c r => JStr (String c EmptyString) :: chars r
  end.

(** The items a [for] loop visits *)
Definition iterate (j : Json) : Outcome (list Json) :=
  match j with
  | JList l => Ok l
  | JDict entries => Ok (List.map (fun kv => JStr (fst kv)) entries)
  | JStr s => Ok (chars s)
  | _ => Raise (mkExn TypeError ("'" ++ type_name j ++ "' object is not iterable"))
  end.

(** [[d] if isinstance(d, dict) else d] *)
Definition listify (j : Json) : Json :=
  match j with JDict _ => JList [j] | _ => j end.
End Py.

(** ** Requests and results of the command-line pipeline *)

(** [args.cluster] as [parse_args] leaves it: absent, a text, or an [int]. *)
Inductive ClusterArg :=
| ClusterNone
| ClusterStr (s : string)
| ClusterInt (n : Z).

(** The [argparse.Namespace] read by [run_format_pipeline].  [parse_args]
    declares no option for [skip_verify]: [None] is a namespace without that
    attribute, [Some b] one a caller has put it on. *)
Record Args := mkArgs {
  arg_disk : Z;
  arg_label : string;
  arg_fs : string;
  arg_quick : bool;
  arg_cluster : ClusterArg;
  arg_gpt : bool;
  arg_camera_compat : bool;
  arg_wipe : string;
  arg_test_io : bool;
  arg_test_io_size : Z;
  arg_dry_run : bool;
  arg_yes : bool;
  arg_skip_verify : option bool
}.

(** The request of the end-to-end scenario: disk 3, file system AUTO,
    camera profile, metadata wipe, quick format; pre-authorised, no dry
    run, verification on, no I/O test, no cluster asked for. *)
Definition camera_request (raw_label : string) (gpt : bool) : Args :=
  mkArgs 3 raw_label "AUTO" true ClusterNone gpt true "metadata" false 8 false true
    (Some false).

(** The dictionary [result]; a key that is not there yet is [None], and
    [r_cluster = None] is the text DEFAULT. *)
Record PipelineResult := mkResult {
  r_disk : Z;
  r_size : Z;
  r_fs : string;
  r_style : string;
  r_label : string;
  r_cluster : option Z;
  r_quick : bool;
  r_wipe : string;
  r_camera_compat : bool;
  r_dry_run : bool;
  r_steps : list string;
  r_drive_letter : option string;
  r_verify : option string;
  r_test_io : option (bool * string * Z);
  r_status : option string;
  r_error : option string
}.

Definition add_step (name : string) (r : PipelineResult) : PipelineResult :=
  mkResult (r_disk r) (r_size r) (r_fs r) (r_style r) (r_label r) (r_cluster r)
    (r_quick r) (r_wipe r) (r_camera_compat r) (r_dry_run r)
    (r_steps r ++ [name]) (r_drive_letter r) (r_verify r) (r_test_io r)
    (r_status r) (r_error r).

Definition set_drive_letter (dl : string) (r : PipelineResult) : PipelineResult :=
  mkResult (r_disk r) (r_size r) (r_fs r) (r_style r) (r_label r) (r_cluster r)
    (r_quick r) (r_wipe r) (r_camera_compat r) (r_dry_run r)
    (r_steps r) (Some dl) (r_verify r) (r_test_io r) (r_status r) (r_error r).

Definition set_verify (x : string) (r : PipelineResult) : PipelineResult :=
  mkResult (r_disk r) (r_size r) (r_fs r) (r_style r) (r_label r) (r_cluster r)
    (r_quick r) (r_wipe r) (r_camera_compat r) (r_dry_run r)
    (r_steps r) (r_drive_letter r) (Some x) (r_test_io r) (r_status r) (r_error r).

Definition set_test_io (x : bool * string * Z) (r : PipelineResult) : PipelineResult :=
  mkResult (r_disk r) (r_size r) (r_fs r) (r_style r) (r_label r) (r_cluster r)
    (r_quick r) (r_wipe r) (r_camera_compat r) (r_dry_run r)
    (r_steps r) (r_drive_letter r) (r_verify r) (Some x) (r_status r) (r_error r).

Definition set_status (x : string) (r : PipelineResult) : PipelineResult :=
  mkResult (r_disk r) (r_size r) (r_fs r) (r_style r) (r_label r) (r_cluster r)
    (r_quick r) (r_wipe r) (r_camera_compat r) (r_dry_run r)
    (r_steps r) (r_drive_letter r) (r_verify r) (r_test_io r) (Some x) (r_error r).

Definition set_error (x : string) (r : PipelineResult) : PipelineResult :=
  mkResult (r_disk r) (r_size r) (r_fs r) (r_style r) (r_label r) (r_cluster r)
    (r_quick r) (r_wipe r) (r_camera_compat r) (r_dry_run r)
    (r_steps r) (r_drive_letter r) (r_verify r) (r_test_io r) (r_status r) (Some x).

(** [x if x else None] for an optional [int] *)
Definition nonzero (c : option Z) : option Z :=
  match c with
  | Some n => if n =? 0 then None else Some n
  | None => None
  end.

(** The text [run_ps] gives its [PSError]: the standard error of the
    process, stripped, or a fixed text when that is empty. *)
Definition ps_error_text (p : CompletedProcess) : string :=
  let err := PyStr.strip (stderr p) in
  if PyStr.is_empty err then Msg.ps_default else err.

Section Pipeline.

Variable H : Host.
Variable v : Variant.

(** What a run has done to the world so far. *)
Record St := mkSt { world : World H; trace : list Event }.

Definition Run := M St.

(** [int(x)] *)
Definition py_int (j : Json) : Outcome Z :=
  match j with
  | JBool b => Ok (if b then 1 else 0)
  | JInt n => Ok n
  | JStr s =>
      match int_of_str H s with
      | Some n => Ok n
      | None => Raise (mkExn ValueError
                  ("invalid literal for int() with base 10: " ++ repr H j))
      end
  | _ => Raise (mkExn TypeError
           ("int() argument must be a string, a bytes-like object or a real number, not '"
            ++ Py.type_name j ++ "'"))
  end.

(** [str(x)] *)
Definition py_str (j : Json) : string :=
  match j with
  | JNull => "None"
  | JBool b => if b then "True" else "False"
  | JInt n => PyStr.of_int n
  | JStr s => s
  | _ => repr H j
  end.

(** [run_ps]: with [dry_run] nothing is spawned. *)
Definition run_ps (script : Cmd) (dry_run : bool) : Run CompletedProcess :=
  fun st =>
    if dry_run then (Ok Dummy, st)
    else
      let (p, w) := spawn H (world st) script in
      let st' := mkSt w (trace st ++ [Spawned script]) in
      if returncode p =? 0 then (Ok p, st')
      else (Raise (mkExn PSError (ps_error_text p)), st').

(** [ps_json].  The byte-order mark of the second attempt has no code
    below 256, which leaves blank, LF, CR and TAB to strip. *)
Definition ps_json (script : Cmd) (dry_run : bool) : Run Json :=
  p <- run_ps script dry_run ;;
  let text := PyStr.strip (stdout p) in
  if PyStr.is_empty text then ret (JList [])
  else match json_loads H text with
       | inr j => ret j
       | inl _ =>
           let cleaned :=
             PyStr.strip_chars
               (String " " (String PyStr.LF (String PyStr.CR (String PyStr.TAB ""))))
               text in
           if PyStr.is_empty cleaned then ret (JList [])
           else match json_loads H cleaned with
                | inr j => ret j
                | inl msg => raise (mkExn JSONDecodeError msg)
                end
       end.

(** The inner loop of [list_disks] over the volumes of one disk. *)
Definition letter_of (x : Json) : Outcome (list string) :=
  match x with
  | JDict entries =>
      let dl := PyStr.strip
                  (py_str (Py.or_else (Py.get entries "DriveLetter" JNull) (JStr ""))) in
      Ok (if PyStr.is_empty dl then [] else [dl])
  | _ => Raise (mkExn AttributeError
           ("'" ++ Py.type_name x ++ "' object has no attribute 'get'"))
  end.

Definition volume_letters (number : Z) (dry_run : bool) : Run (list string) :=
  vol_letters <- ps_json (GetVolumeLetters number) dry_run ;;
  let vol_letters := Py.listify vol_letters in
  items <- lift_outcome (Py.iterate (Py.or_else vol_letters (JList []))) ;;
  found <- for_each (fun x => lift_outcome (letter_of x)) items ;;
  ret (List.concat found).

(** The body of the outer loop of [list_disks]; [d["Number"]] is the
    first thing evaluated, so anything but a dictionary stops there. *)
Definition disk_entry (dry_run : bool) (d : Json) : Run DiskRecord :=
  match d with
  | JDict entries =>
      n <- lift_outcome (Py.subscript entries "Number") ;;
      number <- lift_outcome (py_int n) ;;
      parts <- ps_json (GetPartition number) dry_run ;;
      let parts := Py.listify parts in
      letters <- (if Py.truthy parts then volume_letters number dry_run else ret []) ;;
      size <- lift_outcome
                match v with
                | English => py_int (Py.or_else (Py.get entries "Size" JNull) (JInt 0))
                | Italian =>
                    match Py.subscript entries "Size" with
                    | Ok x => py_int x
                    | Raise e => Raise e
                    end
                end ;;
      let flag k := Py.truthy (Py.get entries k (JBool false)) in
      ret (mkDisk number size (flag "IsSystem") (flag "IsBoot") (flag "IsReadOnly")
             letters)
  | _ => raise (Py.not_subscriptable d)
  end.

(** [list_disks] *)
Definition list_disks (dry_run : bool) : Run (list DiskRecord) :=
  discs <- ps_json GetDisk dry_run ;;
  let discs := Py.listify discs in
  items <- lift_outcome (Py.iterate discs) ;;
  for_each (disk_entry dry_run) items.


(** [dismount_volumes] *)
Definition dismount_volumes (disk_number : Z) (dry_run : bool) : Run unit :=
  run_ps (DismountVolumes disk_number) dry_run ;;; ret tt.

(** [disk_zero_fill_diskpart] *)
Definition disk_zero_fill_diskpart (disk_number : Z) (dry_run : bool) : Run unit :=
  run_ps (DiskpartCleanAll disk_number) dry_run ;;; ret tt.

(** [clear_and_init] *)
Definition clear_and_init (disk_number : Z) (style wipe : string) (dry_run : bool)
    : Run unit :=
  (if String.eqb wipe "zero-all"
   then disk_zero_fill_diskpart disk_number dry_run else ret tt) ;;;
  run_ps (ClearAndInitialize disk_number style) dry_run ;;; ret tt.

(** [x[-1]] *)
Definition last_item (xs : list string) : Outcome string :=
  match xs with
  | [] => Raise (mkExn IndexError Msg.index_range)
  | _ => Ok (List.last xs "")
  end.

(** [create_partition_and_format]: the assigned drive letter. *)
Definition create_partition_and_format (disk_number : Z) (fs label : string)
    (cluster : option Z) (quick dry_run : bool) : Run string :=
  p <- run_ps (NewPartitionAndFormat disk_number fs label (nonzero cluster) quick)
         dry_run ;;
  if PyStr.is_empty (stdout p) then ret ""
  else l <- lift_outcome (last_item (PyStr.splitlines (PyStr.strip (stdout p)))) ;;
       ret (PyStr.strip l).

(** [verify_volume] *)
Definition verify_volume (drive_letter expected_fs expected_label : string)
    (dry_run : bool) : Run bool :=
  if PyStr.is_empty drive_letter then ret false
  else
    p <- run_ps (GetVolume drive_letter) dry_run ;;
    let out := PyStr.strip (stdout p) in
    if PyStr.is_empty out then ret false
    else match PyStr.split_once "|" out with
         | None => ret false
         | Some (fs, label) =>
             ret (String.eqb (PyStr.upper fs) (PyStr.upper expected_fs)
                  && String.eqb label expected_label)%bool
         end.

(** [test_io]: it raises nothing; the English front end asks for a drive
    letter first. *)
Definition test_io (drive_letter : string) (size_mb : Z) (dry_run : bool)
    : Run (bool * string) :=
  if dry_run then ret (true, "dry-run")
  else if match v with
          | English => PyStr.is_empty drive_letter
          | Italian => false
          end
  then ret (false, Msg.no_letter)
  else fun st =>
    let (found, w) := write_test_file H (world st) drive_letter size_mb in
    let st' := mkSt w (trace st ++ [TestFile drive_letter size_mb]) in
    let total := Z.max 0 size_mb * (1024 * 1024) in
    match found with
    | FsWritten sz =>
        if sz =? total then (Ok (true, "OK"), st')
        else (Ok (false, Msg.size_mismatch v sz total), st')
    | FsError msg => (Ok (false, msg), st')
    end.

(** [input(...).strip()] *)
Definition input_stripped : Run string :=
  fun st =>
    let (line, w) := read_line H (world st) in
    (Ok (PyStr.strip line), mkSt w (trace st ++ [Prompted])).

(** The cluster selection of [run_format_pipeline]; only the English
    front end refuses a non-positive number. *)
Definition select_cluster (args : Args) (fs : string) (target : DiskRecord)
    : Outcome (option Z) :=
  match arg_cluster args with
  | ClusterNone => Ok None
  | ClusterStr s =>
      if PyStr.is_empty s then Ok None
      else if String.eqb (PyStr.upper s) "AUTO"
      then match suggest_cluster fs (size target) with
           | Ok c => Ok (Some c)
           | Raise e => Raise e
           end
      else Ok None
  | ClusterInt n =>
      if n =? 0 then Ok None
      else match v with
           | English =>
               if n <=? 0 then Raise (mkExn ValueError Msg.bad_cluster)
               else Ok (Some n)
           | Italian => Ok (Some n)
           end
  end.

(** The confirmation block. *)
Definition confirm (args : Args) (target : DiskRecord) : Run unit :=
  if arg_yes args then ret tt
  else
    conf <- input_stripped ;;
    if String.eqb conf ("CONFIRM-" ++ PyStr.of_int (number target)) then ret tt
    else raise (mkExn RuntimeError (Msg.confirm_mismatch v)).

(** The [try] block runs on the dictionary [result] and the world. *)
Definition Try := M (PipelineResult * St).

Definition call {A} (m : Run A) : Try A :=
  fun s => let (o, st) := m (snd s) in (o, (fst s, st)).

Definition update (f : PipelineResult -> PipelineResult) : Try unit :=
  fun s => (Ok tt, (f (fst s), snd s)).

Definition try_body (args : Args) (target : DiskRecord) (fs label style : string)
    (cluster : option Z) : Try unit :=
  let dry_run := arg_dry_run args in
  call (dismount_volumes (number target) dry_run) ;;;
  update (add_step "dismount_volumes") ;;;
  call (clear_and_init (number target) style (arg_wipe args) dry_run) ;;;
  update (add_step "clear_and_init") ;;;
  dl <- call (create_partition_and_format (number target) fs label cluster
                (arg_quick args) dry_run) ;;
  update (set_drive_letter dl) ;;;
  update (add_step "create_partition_and_format") ;;;
  skip_verify <- match arg_skip_verify args with
                 | Some b => ret b
                 | None => raise (mkExn AttributeError Msg.no_skip_verify)
                 end ;;
  (if skip_verify then ret tt
   else
     ok <- call (verify_volume dl fs label dry_run) ;;
     update (set_verify (if ok then "OK" else "FAILED")) ;;;
     if ok then ret tt else raise (mkExn RuntimeError (Msg.verify_failed v))) ;;;
  (if arg_test_io args then
     res <- call (test_io dl (arg_test_io_size args) dry_run) ;;
     update (set_test_io (fst res, snd res, arg_test_io_size args)) ;;;
     if fst res then ret tt else raise (mkExn RuntimeError (Msg.io_failed v (snd res)))
   else ret tt).

Definition initial_result (args : Args) (target : DiskRecord)
    (fs label style : string) (cluster : option Z) : PipelineResult :=
  mkResult (number target) (size target) fs style label (nonzero cluster)
    (arg_quick args) (arg_wipe args) (arg_camera_compat args) (arg_dry_run args)
    [] None None None None None.

(** [try: ... return result / except Exception as e: ... return result] *)
Definition guarded (body : Try unit) (result : PipelineResult) : Run PipelineResult :=
  fun st =>
    match body (result, st) with
    | (Ok _, (r, st')) => (Ok (set_status "OK" r), st')
    | (Raise e, (r, st')) =>
        (Ok (set_error (exn_msg e) (set_status "ERROR" r)), st')
    end.

(** [run_format_pipeline].  The target's size is a catalogue size, on
    which [suggest_fs] returns [fs_by_size]. *)
Definition run_format_pipeline (args : Args) : Run PipelineResult :=
  disks <- list_disks (arg_dry_run args) ;;
  match List.find (fun d => number d =? arg_disk args) disks with
  | None => raise (mkExn ValueError (Msg.not_found v (arg_disk args)))
  | Some target =>
      match ensure_safe_target v target with
      | Some e => raise e
      | None =>
          let fs := PyStr.upper (arg_fs args) in
          let fs := if String.eqb fs "AUTO" then fs_by_size (size target) else fs in
          let label := sanitize_label v (arg_label args) fs (arg_camera_compat args) in
          cluster <- lift_outcome (select_cluster args fs target) ;;
          let style := if arg_gpt args then "GPT" else "MBR" in
          confirm args target ;;;
          guarded (try_body args target fs label style cluster)
                  (initial_result args target fs label style cluster)
      end
  end.

End Pipeline.

Arguments world {H} s.
Arguments trace {H} s.
Arguments mkSt {H} world trace.

(** ** The policy part of the graphical front end *)

Module Gui.

Definition a_grave : string := String (PyStr.chr 224) EmptyString.

Definition fat32_too_large : string :=
  "FAT32 selezionato ma la capacit" ++ a_grave ++ " supera 32 GB. Usa exFAT o AUTO.".

(** [cluster_bytes_from_label]; [label.split()[0]] is outside the [try]. *)
Definition cluster_bytes_from_label (int_of_str : string -> option Z)
    (label : string) : Outcome (option Z) :=
  if PyStr.startswith "auto" (PyStr.lower label) then Ok None
  else match PyStr.first_word label with
       | None => Raise (mkExn IndexError Msg.index_range)
       | Some num =>
           match int_of_str num with
           | Some n => Ok (Some (n * 1024))
           | None => Ok None
           end
       end.

(** [FormatWorker._run_pipeline] from its start to the check on FAT32:
    [fs] and [cluster_label] come from the request, [size_bytes] from the
    catalogue ([None] when the disk was not found or the query failed).
    The result is the final [fs] and [cluster_bytes]. *)
Definition resolve_policy (int_of_str : string -> option Z)
    (fs_arg : string) (cam_compat : bool) (cluster_label : string)
    (size_bytes : option Z) : Outcome (string * option Z) :=
  let fits := match size_bytes with
              | Some s => s <=? 32 * 1024 ^ 3
              | None => false
              end in
  let fs := PyStr.upper fs_arg in
  let fs := if String.eqb fs "AUTO" then (if fits then "FAT32" else "exFAT") else fs in
  match
    (if cam_compat
     then Ok (if fits then "FAT32" else fs, Some (32 * 1024))
     else match cluster_bytes_from_label int_of_str cluster_label with
          | Ok c => Ok (fs, c)
          | Raise e => Raise e
          end)
  with
  | Raise e => Raise e
  | Ok (fs, cluster_bytes) =>
      if (String.eqb fs "FAT32" && negb fits)%bool
      then Raise (mkExn RuntimeError fat32_too_large)
      else Ok (fs, cluster_bytes)
  end.

End Gui.

(** ** A scripted executor

    A host that answers every command from a script, in the manner of the
    executor double the design documents ask for: one removable disk,
    number 3, holding one volume. *)

Module Scripted.

Record Scenario := mkScenario {
  sc_size : Z;            (* Size reported by Get-Disk *)
  sc_system : bool;       (* IsSystem *)
  sc_typed : string;      (* the line the operator types *)
  sc_dismount_rc : Z;     (* exit status of the dismount script *)
  sc_new_letter : string; (* letter printed by the partition script *)
  sc_volume : string      (* what Get-Volume prints after the format *)
}.

Definition q (s : string) : string :=
  String PyStr.dquote (s ++ String PyStr.dquote EmptyString).

Definition json_bool (b : bool) : string := if b then "true" else "false".

(** ConvertTo-Json -Compress prints a lone object without brackets. *)
Definition disk_text (sc : Scenario) : string :=
  "{" ++ q "Number" ++ ":3," ++ q "Size" ++ ":" ++ PyStr.of_int (sc_size sc) ++ ","
  ++ q "IsSystem" ++ ":" ++ json_bool (sc_system sc) ++ ","
  ++ q "IsBoot" ++ ":false," ++ q "IsReadOnly" ++ ":false}".

Definition disk_json (sc : Scenario) : Json :=
  JDict [("Number", JInt 3); ("Size", JInt (sc_size sc));
         ("IsSystem", JBool (sc_system sc)); ("IsBoot", JBool false);
         ("IsReadOnly", JBool false)].

Definition partition_text : string :=
  "{" ++ q "DiskNumber" ++ ":3," ++ q "PartitionNumber" ++ ":1,"
  ++ q "DriveLetter" ++ ":" ++ q "E" ++ "}".

Definition partition_json : Json :=
  JDict [("DiskNumber", JInt 3); ("PartitionNumber", JInt 1); ("DriveLetter", JStr "E")].

Definition letter_text (l : string) : string := "{" ++ q "DriveLetter" ++ ":" ++ q l ++ "}".
Definition letter_json (l : string) : Json := JDict [("DriveLetter", JStr l)].

Definition nl (s : string) : string := s ++ String PyStr.LF EmptyString.

(** The world is the list of drive letters mounted from disk 3. *)
Definition answer (sc : Scenario) (w : list string) (c : Cmd)
    : CompletedProcess * list string :=
  match c with
  | GetDisk => (mkProc 0 (nl (disk_text sc)) "", w)
  | GetPartition 3 => (mkProc 0 (nl partition_text) "", w)
  | GetPartition _ => (mkProc 0 "" "", w)
  | GetVolumeLetters 3 =>
      (mkProc 0 (match w with l :: _ => nl (letter_text l) | [] => "" end) "", w)
  | GetVolumeLetters _ => (mkProc 0 "" "", w)
  | DismountVolumes _ =>
      if sc_dismount_rc sc =? 0 then (mkProc 0 "" "", [])
      else (mkProc (sc_dismount_rc sc) "" (nl "Access is denied."), w)
  | DiskpartCleanAll _ => (mkProc 0 "" "", [])
  | ClearAndInitialize _ _ => (mkProc 0 "" "", [])
  | NewPartitionAndFormat _ _ _ _ _ =>
      (mkProc 0 (nl (sc_new_letter sc)) "", [sc_new_letter sc])
  | GetVolume _ => (mkProc 0 (nl (sc_volume sc)) "", w)
  end.

Definition decode (sc : Scenario) (text : string) : string + Json :=
  if String.eqb text (disk_text sc) then inr (disk_json sc)
  else if String.eqb text partition_text then inr partition_json
  else if String.eqb text (letter_text "E") then inr (letter_json "E")
  else if String.eqb text (letter_text (sc_new_letter sc))
       then inr (letter_json (sc_new_letter sc))
  else inl "Expecting value: line 1 column 1 (char 0)".

Definition host (sc : Scenario) : Host :=
  mkHost (list string) (answer sc)
    (fun w => (sc_typed sc, w))
    (fun w dl mb => (FsWritten (Z.max 0 mb * (1024 * 1024)), w))
    (decode sc) (fun _ => None) (fun _ => EmptyString).

(** Disk 3 is mounted as E: and nothing has run yet. *)
Definition start (sc : Scenario) : St (host sc) := mkSt (H := host sc) ["E"] [].

(** The request of the end-to-end scenario with the label GoPro. *)
Definition request : Args := camera_request "GoPro" false.

Definition with_yes (b : bool) (a : Args) : Args :=
  mkArgs (arg_disk a) (arg_label a) (arg_fs a) (arg_quick a) (arg_cluster a)
    (arg_gpt a) (arg_camera_compat a) (arg_wipe a) (arg_test_io a)
    (arg_test_io_size a) (arg_dry_run a) b (arg_skip_verify a).

Definition with_dry_run (b : bool) (a : Args) : Args :=
  mkArgs (arg_disk a) (arg_label a) (arg_fs a) (arg_quick a) (arg_cluster a)
    (arg_gpt a) (arg_camera_compat a) (arg_wipe a) (arg_test_io a)
    (arg_test_io_size a) b (arg_yes a) (arg_skip_verify a).

Definition with_fs (fs : string) (a : Args) : Args :=
  mkArgs (arg_disk a) (arg_label a) fs (arg_quick a) (arg_cluster a)
    (arg_gpt a) (arg_camera_compat a) (arg_wipe a) (arg_test_io a)
    (arg_test_io_size a) (arg_dry_run a) (arg_yes a) (arg_skip_verify a).

Definition with_skip_verify (x : option bool) (a : Args) : Args :=
  mkArgs (arg_disk a) (arg_label a) (arg_fs a) (arg_quick a) (arg_cluster a)
    (arg_gpt a) (arg_camera_compat a) (arg_wipe a) (arg_test_io a)
    (arg_test_io_size a) (arg_dry_run a) (arg_yes a) x.

Definition with_camera_compat (b : bool) (a : Args) : Args :=
  mkArgs (arg_disk a) (arg_label a) (arg_fs a) (arg_quick a) (arg_cluster a)
    (arg_gpt a) b (arg_wipe a) (arg_test_io a)
    (arg_test_io_size a) (arg_dry_run a) (arg_yes a) (arg_skip_verify a).

(** The namespace [parse_args] builds from
    --disk 3 --label GoPro --camera-compat --yes: it has no attribute
    [skip_verify]. *)
Definition parsed : Args := with_skip_verify None request.

(** A 32 GB card that formats as E: and verifies. *)
Definition card32 : Scenario :=
  mkScenario 32000000000 false "CONFIRM-3" 0 "E" "FAT32|GOPRO".

(** A 64 GB card. *)
Definition card64 : Scenario :=
  mkScenario 64000000000 false "CONFIRM-3" 0 "E" "FAT32|GOPRO".

(** A 16 GB card that the request below formats as exFAT. *)
Definition card16 : Scenario :=
  mkScenario 16000000000 false "CONFIRM-3" 0 "E" "exFAT|GOPRO".

(** The operator mistypes the token. *)
Definition mistyped : Scenario :=
  mkScenario 32000000000 false "CONFIRM-4" 0 "E" "FAT32|GOPRO".

(** The dismount script exits with status 5. *)
Definition locked : Scenario :=
  mkScenario 32000000000 false "CONFIRM-3" 5 "E" "FAT32|GOPRO".

(** The volume reports the label it was given, blank at the end and all. *)
Definition cut_label : Scenario :=
  mkScenario 32000000000 false "CONFIRM-3" 0 "E" "FAT32|ABCDEFGHIJ ".

(** The partition script prints an empty line. *)
Definition no_letter : Scenario :=
  mkScenario 32000000000 false "CONFIRM-3" 0 "" "FAT32|GOPRO".

(** A machine on which every script exits with 0 and prints nothing. *)
Definition silent : Host :=
  mkHost unit (fun w _ => (mkProc 0 "" "", w)) (fun w => ("", w))
    (fun w _ _ => (FsError "no such drive", w))
    (fun _ => inl "Expecting value: line 1 column 1 (char 0)")
    (fun _ => None) (fun _ => EmptyString).

Definition run (v : Variant) (sc : Scenario) (args : Args)
    : Outcome PipelineResult * St (host sc) :=
  run_format_pipeline (host sc) v args (start sc).

End Scripted.

(** ** Predicates used in the statements *)

(** Shapes of labels. *)
Fixpoint all_chars (p : ascii -> bool) (s : string) : bool :=
  match s with
  | EmptyString => true
  | String c r => (p c && all_chars p r)%bool
  end.

Definition first_is (p : ascii -> bool) (s : string) : bool :=
  match s with
  | EmptyString => false
  | String c _ => p c
  end.

Fixpoint last_is (p : ascii -> bool) (s : string) : bool :=
  match s with
  | EmptyString => false
  | String c EmptyString => p c
  | String _ r => last_is p r
  end.

(** White space occurs as single blanks only; [after_space] tells that
    the character before the text was white space. *)
Fixpoint single_blanks (after_space : bool) (s : string) : bool :=
  match s with
  | EmptyString => true
  | String c r =>
      if PyStr.is_space c
      then (negb after_space && Ascii.eqb c " " && single_blanks true r)%bool
      else single_blanks false r
  end.

Definition blank (c : ascii) : bool := Ascii.eqb c " ".
Definition dot_or_blank (c : ascii) : bool := PyStr.mem c ". ".

(** The characters a label of the general profile is made of; the
    English front end has dropped the apostrophe as well. *)
Definition label_char (v : Variant) (c : ascii) : bool :=
  (general_char c
   && match v with
      | English => negb (Ascii.eqb c PyStr.squote)
      | Italian => true
      end)%bool.

(** The text [sanitize_label] works on after dropping the quotes. *)
Definition raw_label (v : Variant) (x : string) : string :=
  match v with
  | English => PyStr.remove PyStr.dquote (PyStr.remove PyStr.squote (PyStr.strip x))
  | Italian => PyStr.strip x
  end.

(** What every label of the camera profile looks like: capitals, digits,
    underscores and single blanks, no blank in front, at most 11
    characters, not empty. *)
Definition camera_shape (y : string) : Prop :=
  all_chars camera_char y = true
  /\ single_blanks false y = true
  /\ first_is PyStr.is_space y = false
  /\ (String.length y <= 11)%nat
  /\ y <> "".

(** What every label of the general profile looks like. *)
Definition general_shape (v : Variant) (y : string) : Prop :=
  all_chars (label_char v) y = true
  /\ first_is dot_or_blank y = false
  /\ (String.length y <= 32)%nat
  /\ y <> "".

(** The quote character the format script of each front end wraps the
    label in: ['{label}'] in the English one, ["{label}"] in the Italian. *)
Definition script_quote (v : Variant) : ascii :=
  match v with
  | English => PyStr.squote
  | Italian => PyStr.dquote
  end.





(** [xs] is an initial segment of [ys]. *)
Definition initial_segment {A} (xs ys : list A) : Prop :=
  exists rest, ys = (xs ++ rest)%list.

(** The events of a run that change the disk. *)
Definition harmless (evs : list Event) : Prop :=
  Forall (fun e => event_mutates e = false) evs.

(** A computation that adds only harmless events to the trace. *)
Definition only_queries {H A} (m : M (St H) A) : Prop :=
  forall st o st', m st = (o, st') ->
    exists evs, trace st' = (trace st ++ evs)%list /\ harmless evs.

(** A computation whose exceptions all carry a text. *)
Definition raises_text {S A} (m : M S A) : Prop :=
  forall s e s', m s = (Raise e, s') -> exn_msg e <> "".

(** A step of the [try] block: it leaves the keys [status] and [error] of
    the dictionary alone, and what it raises carries a text. *)
Definition tidy {H A} (m : M (PipelineResult * St H) A) : Prop :=
  forall s o s', m s = (o, s') ->
    r_status (fst s') = r_status (fst s) /\ r_error (fst s') = r_error (fst s)
    /\ (forall e, o = Raise e -> exn_msg e <> "").

(** The step names in the order the [try] block appends them. *)
Definition all_steps : list string :=
  ["dismount_volumes"; "clear_and_init"; "create_partition_and_format"].

(** The file system [run_format_pipeline] settles on. *)
Definition resolve_fs (args : Args) (target : DiskRecord) : string :=
  if String.eqb (PyStr.upper (arg_fs args)) "AUTO"
  then fs_by_size (size target) else PyStr.upper (arg_fs args).

(** The data [run_format_pipeline] has in hand when it enters the [try]
    block from the state [st2]. *)
Definition resolved (H : Host) (v : Variant) (args : Args) (st : St H)
    (target : DiskRecord) (fs label style : string) (cluster : option Z)
    (st2 : St H) : Prop :=
  exists disks st1,
    list_disks H v (arg_dry_run args) st = (Ok disks, st1)
    /\ List.find (fun d => number d =? arg_disk args) disks = Some target
    /\ ensure_safe_target v target = None
    /\ fs = resolve_fs args target
    /\ label = sanitize_label v (arg_label args) fs (arg_camera_compat args)
    /\ select_cluster v args fs target = Ok cluster
    /\ style = (if arg_gpt args then "GPT" else "MBR")
    /\ confirm H v args target st1 = (Ok tt, st2).

(** * Safety gate *)

(** The English gate: system and boot disks, read-only disks and disks of
    a known size under 64 MiB are refused; a disk with the three flags down
    and 64 MiB or more passes. *)
Lemma ensure_safe_target_english (d : DiskRecord) :
  ((is_system d || is_boot d)%bool = true ->
     ensure_safe_target English d = Some (mkExn PermissionError (Msg.system_disk English)))
  /\ (is_readonly d = true -> exists e, ensure_safe_target English d = Some e)
  /\ (size d <> 0 -> size d < 64 * 1024 * 1024 ->
        exists e, ensure_safe_target English d = Some e)
  /\ (is_system d = false -> is_boot d = false -> is_readonly d = false ->
        64 * 1024 * 1024 <= size d -> ensure_safe_target English d = None).
Proof.
  unfold ensure_safe_target, MiB64.
  destruct (is_system d), (is_boot d), (is_readonly d); simpl;
    repeat split; intros; try discriminate; eauto.
  - destruct (size d =? 0) eqn:E0; [apply Z.eqb_eq in E0; contradiction|].
    destruct (size d <? 67108864) eqn:E1; simpl; eauto.
    apply Z.ltb_ge in E1. lia.
  - destruct (size d =? 0) eqn:E0; simpl; [reflexivity|].
    destruct (size d <? 67108864) eqn:E1; [|reflexivity].
    apply Z.ltb_lt in E1. lia.
Qed.

(** The Italian gate agrees on the three flags and on what it accepts;
    the size is never looked at. *)
Lemma ensure_safe_target_italian (d : DiskRecord) :
  ensure_safe_target Italian d = None
  <-> (is_system d = false /\ is_boot d = false /\ is_readonly d = false).
Proof.
  unfold ensure_safe_target.
  destruct (is_system d), (is_boot d), (is_readonly d); simpl;
    split; intros; try discriminate; intuition discriminate.
Qed.

(** C1.  A disk of 1 MiB with the three flags down is refused by the
    English [ensure_safe_target] (size known and under 64 MiB) and accepted
    by the Italian one, which has no size floor. *)
Theorem ensure_safe_target_size_floor_missing_in_italian :
  let disk := mkDisk 3 (1024 * 1024) false false false ["E"] in
  ensure_safe_target English disk = Some (mkExn ValueError Msg.too_small)
  /\ ensure_safe_target Italian disk = None.
Proof. split; reflexivity. Qed.

(** * Cluster suggestion *)

Lemma float_limit_value : float_limit = 2 ^ 1054 - 2 ^ 1000.
Proof. vm_compute. reflexivity. Qed.

Lemma gb_overflows_false (bytes_size : Z) :
  Z.abs bytes_size < float_limit -> gb_overflows bytes_size = false.
Proof. intros Hs. unfold gb_overflows. apply Z.leb_gt. exact Hs. Qed.

Lemma gb_overflows_true (bytes_size : Z) :
  float_limit <= Z.abs bytes_size -> gb_overflows bytes_size = true.
Proof. intros Hs. unfold gb_overflows. apply Z.leb_le. exact Hs. Qed.

(** A size that Get-Disk can report is far inside the range of the
    division. *)
Lemma catalogue_size_in_range (bytes_size : Z) :
  0 <= bytes_size < 2 ^ 64 -> Z.abs bytes_size < float_limit.
Proof.
  intros [H0 H1]. rewrite Z.abs_eq by exact H0.
  apply (Z.lt_le_trans _ (2 ^ 64)); [exact H1|].
  vm_compute. discriminate.
Qed.


(** Off FAT32 the second table of [suggest_cluster] is the one read. *)
Lemma suggest_cluster_not_fat32 (fs : string) (bytes_size : Z) :
  PyStr.upper fs <> "FAT32" ->
  gb_overflows bytes_size = false ->
  suggest_cluster fs bytes_size =
    if bytes_size <=? 64 * GiB then Ok 131072
    else if bytes_size <=? 256 * GiB then Ok 262144
    else Ok 524288.
Proof.
  intros Hfs Hgb. unfold suggest_cluster. rewrite Hgb.
  destruct (String.eqb_spec (PyStr.upper fs) "FAT32") as [E|_]; [contradiction|].
  reflexivity.
Qed.

(** C10.  On a file system whose upper-case form is not FAT32 and a size
    of magnitude below 2^1054 - 2^1000, [suggest_cluster] follows the exFAT
    schedule: 131072 up to 64 GiB, 262144 above that up to 256 GiB, 524288
    above 256 GiB.  From that magnitude on the division of the size by
    1024**3 overflows the floats and [suggest_cluster] raises
    [OverflowError]. *)
Theorem suggest_cluster_exfat_schedule (fs : string) (bytes_size : Z) :
  PyStr.upper fs <> "FAT32" ->
  (Z.abs bytes_size < 2 ^ 1054 - 2 ^ 1000 ->
     (bytes_size <= 64 * 1024 ^ 3 -> suggest_cluster fs bytes_size = Ok 131072)
     /\ (64 * 1024 ^ 3 < bytes_size <= 256 * 1024 ^ 3 ->
           suggest_cluster fs bytes_size = Ok 262144)
     /\ (256 * 1024 ^ 3 < bytes_size -> suggest_cluster fs bytes_size = Ok 524288))
  /\ (2 ^ 1054 - 2 ^ 1000 <= Z.abs bytes_size ->
        suggest_cluster fs bytes_size =
          Raise (mkExn OverflowError "integer division result too large for a float")).
Proof.
  intros Hfs. rewrite <- float_limit_value. split.
  - intros Hs.
    rewrite (suggest_cluster_not_fat32 fs bytes_size Hfs (gb_overflows_false _ Hs)).
    change GiB with 1073741824. change (1024 ^ 3) with 1073741824.
    repeat split; intros;
      repeat match goal with
             | |- context [?a <=? ?b] => destruct (Z.leb_spec a b)
             end; try reflexivity; lia.
  - intros Hs. unfold suggest_cluster. rewrite (gb_overflows_true _ Hs). reflexivity.
Qed.

Lemma suggest_cluster_exfat_schedule_witness :
  PyStr.upper "ntfs" <> "FAT32"
  /\ suggest_cluster "ntfs" (64 * 1024 ^ 3) = Ok 131072
  /\ suggest_cluster "exFAT" (100 * 1024 ^ 3) = Ok 262144
  /\ suggest_cluster "EXFAT" (512 * 1024 ^ 3) = Ok 524288
  /\ suggest_cluster "exFAT" (2 ^ 1054 - 2 ^ 1000) =
       Raise (mkExn OverflowError "integer division result too large for a float").
Proof.
  split; [vm_compute; discriminate|].
  split; [|split; [|split]].
  - apply (suggest_cluster_exfat_schedule "ntfs" (64 * 1024 ^ 3));
      [vm_compute; discriminate | vm_compute; reflexivity | vm_compute; discriminate].
  - apply (suggest_cluster_exfat_schedule "exFAT" (100 * 1024 ^ 3));
      [vm_compute; discriminate | vm_compute; reflexivity
      | split; vm_compute; [reflexivity | discriminate]].
  - apply (suggest_cluster_exfat_schedule "EXFAT" (512 * 1024 ^ 3));
      [vm_compute; discriminate | vm_compute; reflexivity | vm_compute; reflexivity].
  - apply (suggest_cluster_exfat_schedule "exFAT" (2 ^ 1054 - 2 ^ 1000));
      [vm_compute; discriminate | vm_compute; discriminate].
Defined.

(** C10, as stated, fails: the claim is for every size, and at the size
    10^400, above 256 GiB, [suggest_cluster] returns no cluster: the
    division raises [OverflowError]. *)
Lemma suggest_cluster_raises_at_huge_size :
  PyStr.upper "exFAT" <> "FAT32"
  /\ 256 * 1024 ^ 3 < 10 ^ 400
  /\ suggest_cluster "exFAT" (10 ^ 400) =
       Raise (mkExn OverflowError "integer division result too large for a float")
  /\ suggest_cluster "exFAT" (10 ^ 400) <> Ok 524288.
Proof.
  split; [vm_compute; discriminate|].
  split; [vm_compute; reflexivity|].
  split; [vm_compute; reflexivity | vm_compute; discriminate].
Qed.

(** * Label sanitisation *)

(** C8.  [sanitize_label] applied twice differs from [sanitize_label]
    applied once, in both front ends: in camera mode on a label whose
    eleventh character is a blank, in general mode on a label whose
    thirty-second character is a dot. *)
Theorem sanitize_label_twice_differs (v : Variant) :
  let x := "ABCDEFGHIJ KL" in
  let y := "0123456789012345678901234567890.x" in
  sanitize_label v x "FAT32" true = "ABCDEFGHIJ "
  /\ sanitize_label v (sanitize_label v x "FAT32" true) "FAT32" true = "ABCDEFGHIJ"
  /\ sanitize_label v y "exFAT" false = "0123456789012345678901234567890."
  /\ sanitize_label v (sanitize_label v y "exFAT" false) "exFAT" false
     = "0123456789012345678901234567890".
Proof. destruct v; repeat split; reflexivity. Qed.

(** * The executor and the catalogue *)

Section ExecutorFacts.

Context {H : Host}.

Lemma bind_ok {S A B} (m : M S A) (k : A -> M S B) s a s' :
  m s = (Ok a, s') -> bind m k s = k a s'.
Proof. intros E. unfold bind. rewrite E. reflexivity. Qed.

Lemma bind_raise {S A B} (m : M S A) (k : A -> M S B) s e s' :
  m s = (Raise e, s') -> bind m k s = (Raise e, s').
Proof. intros E. unfold bind. rewrite E. reflexivity. Qed.

(** What [bind] returns comes from one of its two halves. *)
Lemma bind_inv {S A B} (m : M S A) (k : A -> M S B) s o s' :
  bind m k s = (o, s') ->
  (exists a s1, m s = (Ok a, s1) /\ k a s1 = (o, s'))
  \/ (exists e, m s = (Raise e, s') /\ o = Raise e).
Proof.
  unfold bind. destruct (m s) as [[a|e] s1]; intros E.
  - left. eauto.
  - right. inversion E; subst. eauto.
Qed.

(** In a dry run [run_ps] spawns nothing and hands back the dummy. *)
Lemma run_ps_dry (script : Cmd) (st : St H) :
  run_ps H script true st = (Ok Dummy, st).
Proof. reflexivity. Qed.

(** Outside a dry run it spawns the script once. *)
Lemma run_ps_trace (script : Cmd) (st : St H) o st' :
  run_ps H script false st = (o, st') ->
  trace st' = (trace st ++ [Spawned script])%list.
Proof.
  unfold run_ps. destruct (spawn H (world st) script) as [p w].
  destruct (returncode p =? 0); intros E; inversion E; reflexivity.
Qed.

Lemma run_ps_exit_0 (script : Cmd) (st : St H) :
  returncode (fst (spawn H (world st) script)) = 0 ->
  run_ps H script false st =
    (Ok (fst (spawn H (world st) script)),
     mkSt (snd (spawn H (world st) script)) (trace st ++ [Spawned script])).
Proof.
  unfold run_ps. destruct (spawn H (world st) script) as [p w]. simpl.
  intros ->. reflexivity.
Qed.

Lemma ps_error_text_not_empty (p : CompletedProcess) : ps_error_text p <> "".
Proof. unfold ps_error_text. destruct (PyStr.strip (stderr p)); discriminate. Qed.

Lemma run_ps_exit_nonzero (script : Cmd) (st : St H) :
  returncode (fst (spawn H (world st) script)) <> 0 ->
  run_ps H script false st =
    (Raise (mkExn PSError (ps_error_text (fst (spawn H (world st) script)))),
     mkSt (snd (spawn H (world st) script)) (trace st ++ [Spawned script])).
Proof.
  unfold run_ps. destruct (spawn H (world st) script) as [p w]. simpl.
  intros Hrc. apply Z.eqb_neq in Hrc. rewrite Hrc. reflexivity.
Qed.

Lemma run_ps_raises_text (script : Cmd) (dry_run : bool) :
  raises_text (run_ps H script dry_run).
Proof.
  intros st e st'. unfold run_ps. destruct dry_run; [discriminate|].
  destruct (spawn H (world st) script) as [p w].
  destruct (returncode p =? 0); [discriminate|].
  intros E. inversion E; subst; simpl. apply ps_error_text_not_empty.
Qed.

(** ** Computations that only query *)

Lemma harmless_nil : harmless [].
Proof. constructor. Qed.

Lemma harmless_app (a b : list Event) : harmless a -> harmless b -> harmless (a ++ b).
Proof. intros Ha Hb. apply Forall_app. split; assumption. Qed.

Lemma only_queries_ret {A} (a : A) : only_queries (H := H) (ret a).
Proof.
  intros st o st' E. inversion E; subst. exists [].
  split; [rewrite app_nil_r; reflexivity | apply harmless_nil].
Qed.

Lemma only_queries_lift {A} (x : Outcome A) : only_queries (H := H) (lift_outcome x).
Proof.
  intros st o st' E. inversion E; subst. exists [].
  split; [rewrite app_nil_r; reflexivity | apply harmless_nil].
Qed.

Lemma only_queries_raise {A} (e : Exn) : only_queries (H := H) (A := A) (raise e).
Proof.
  intros st o st' E. inversion E; subst. exists [].
  split; [rewrite app_nil_r; reflexivity | apply harmless_nil].
Qed.

Lemma only_queries_bind {A B} (m : Run H A) (k : A -> Run H B) :
  only_queries m -> (forall a, only_queries (k a)) -> only_queries (bind m k).
Proof.
  intros Hm Hk st o st' E.
  destruct (bind_inv _ _ _ _ _ E) as [(a & s1 & E1 & E2) | (e & E1 & _)].
  - destruct (Hm _ _ _ E1) as (ev1 & T1 & F1).
    destruct (Hk a _ _ _ E2) as (ev2 & T2 & F2).
    exists (ev1 ++ ev2)%list. split.
    + rewrite T2, T1, app_assoc. reflexivity.
    + apply harmless_app; assumption.
  - exact (Hm _ _ _ E1).
Qed.

Lemma only_queries_for_each {A B} (body : A -> Run H B) (xs : list A) :
  (forall x, only_queries (body x)) -> only_queries (for_each body xs).
Proof.
  intros Hb. induction xs as [|x r IH]; simpl.
  - apply only_queries_ret.
  - apply only_queries_bind; [apply Hb|]. intros y.
    apply only_queries_bind; [exact IH|]. intros ys. apply only_queries_ret.
Qed.

Lemma only_queries_run_ps (script : Cmd) (dry_run : bool) :
  is_mutating script = false -> only_queries (run_ps H script dry_run).
Proof.
  intros Hq st o st' E. destruct dry_run.
  - rewrite run_ps_dry in E. inversion E; subst. exists [].
    split; [rewrite app_nil_r; reflexivity | apply harmless_nil].
  - exists [Spawned script]. split; [exact (run_ps_trace _ _ _ _ E)|].
    constructor; [exact Hq | constructor].
Qed.

Lemma only_queries_ps_json (script : Cmd) (dry_run : bool) :
  is_mutating script = false -> only_queries (ps_json H script dry_run).
Proof.
  intros Hq. unfold ps_json.
  apply only_queries_bind; [apply only_queries_run_ps; exact Hq|].
  intros p. destruct (PyStr.is_empty (PyStr.strip (stdout p))).
  - apply only_queries_ret.
  - destruct (json_loads H (PyStr.strip (stdout p))); [|apply only_queries_ret].
    destruct (PyStr.is_empty _); [apply only_queries_ret|].
    destruct (json_loads H _); [apply only_queries_raise | apply only_queries_ret].
Qed.

Lemma only_queries_volume_letters (n : Z) (dry_run : bool) :
  only_queries (volume_letters H n dry_run).
Proof.
  unfold volume_letters.
  apply only_queries_bind; [apply only_queries_ps_json; reflexivity|]. intros j.
  apply only_queries_bind; [apply only_queries_lift|]. intros items.
  apply only_queries_bind; [|intros; apply only_queries_ret].
  apply only_queries_for_each. intros x. apply only_queries_lift.
Qed.

Lemma only_queries_disk_entry (v : Variant) (dry_run : bool) (d : Json) :
  only_queries (disk_entry H v dry_run d).
Proof.
  unfold disk_entry. destruct d; try apply only_queries_raise.
  apply only_queries_bind; [apply only_queries_lift|]. intros n.
  apply only_queries_bind; [apply only_queries_lift|]. intros number.
  apply only_queries_bind; [apply only_queries_ps_json; reflexivity|]. intros parts.
  apply only_queries_bind.
  - destruct (Py.truthy _); [apply only_queries_volume_letters | apply only_queries_ret].
  - intros ls. apply only_queries_bind; [apply only_queries_lift|].
    intros sz. apply only_queries_ret.
Qed.

(** [list_disks] spawns enumeration queries only. *)
Lemma only_queries_list_disks (v : Variant) (dry_run : bool) :
  only_queries (list_disks H v dry_run).
Proof.
  unfold list_disks.
  apply only_queries_bind; [apply only_queries_ps_json; reflexivity|]. intros j.
  apply only_queries_bind; [apply only_queries_lift|]. intros items.
  apply only_queries_for_each. intros d. apply only_queries_disk_entry.
Qed.

(** The confirmation block reads one line and spawns nothing. *)
Lemma only_queries_confirm (v : Variant) (args : Args) (target : DiskRecord) :
  only_queries (confirm H v args target).
Proof.
  unfold confirm. destruct (arg_yes args); [apply only_queries_ret|].
  apply only_queries_bind.
  - intros st o st'. unfold input_stripped.
    destruct (read_line H (world st)) as [line w]. intros E. inversion E; subst.
    exists [Prompted]. split; [reflexivity|]. constructor; [reflexivity | constructor].
  - intros conf. destruct (String.eqb conf _);
      [apply only_queries_ret | apply only_queries_raise].
Qed.

(** In a dry run the catalogue is empty, whatever the machine holds. *)
Lemma list_disks_dry (v : Variant) (st : St H) :
  list_disks H v true st = (Ok [], st).
Proof. reflexivity. Qed.

End ExecutorFacts.

(** * The pipeline before the [try] block *)

Section Preflight.

Context {H : Host}.
Variable v : Variant.

(** Once the target is resolved and confirmed, the run is the guarded
    [try] block. *)
Lemma run_format_pipeline_resolved (args : Args) (st : St H)
    (target : DiskRecord) (fs label style : string) (cluster : option Z) (st2 : St H) :
  resolved H v args st target fs label style cluster st2 ->
  run_format_pipeline H v args st =
    guarded H (try_body H v args target fs label style cluster)
      (initial_result args target fs label style cluster) st2.
Proof.
  intros (disks & st1 & Hl & Hf & Hs & -> & -> & Hc & -> & Hk).
  unfold run_format_pipeline.
  rewrite (bind_ok _ _ _ _ _ Hl). rewrite Hf, Hs.
  unfold resolve_fs in *.
  unfold lift_outcome at 1. unfold bind at 1. rewrite Hc.
  rewrite (bind_ok _ _ _ _ _ Hk). reflexivity.
Qed.

(** A run that returns a dictionary went through the [try] block. *)
Lemma run_format_pipeline_returns (args : Args) (st : St H) r st' :
  run_format_pipeline H v args st = (Ok r, st') ->
  exists target fs label style cluster st2,
    resolved H v args st target fs label style cluster st2
    /\ guarded H (try_body H v args target fs label style cluster)
         (initial_result args target fs label style cluster) st2 = (Ok r, st').
Proof.
  unfold run_format_pipeline. intros E.
  destruct (bind_inv _ _ _ _ _ E) as [(disks & st1 & Hl & E1) | (e & _ & Habs)];
    [|discriminate].
  destruct (find _ disks) as [target|] eqn:Hf; [|discriminate].
  destruct (ensure_safe_target v target) eqn:Hs; [discriminate|].
  destruct (bind_inv _ _ _ _ _ E1) as [(c & s1 & Hc & E2) | (e & _ & Habs)];
    [|discriminate].
  unfold lift_outcome in Hc. inversion Hc as [[Hc' Hs1]]. subst s1.
  destruct (bind_inv _ _ _ _ _ E2) as [([] & st2 & Hk & E3) | (e & _ & Habs)];
    [|discriminate].
  do 6 eexists. split; [|exact E3].
  exists disks, st1. repeat split; try eassumption; reflexivity.
Qed.

(** C3.  With the dry-run flag set, [run_format_pipeline] spawns no
    process at all, and so the catalogue comes back empty: the run raises
    the not-found [ValueError] before a result dictionary exists, in the
    state it started from. *)
Theorem dry_run_stops_at_enumeration (args : Args) (st : St H) :
  arg_dry_run args = true ->
  run_format_pipeline H v args st =
    (Raise (mkExn ValueError (Msg.not_found v (arg_disk args))), st).
Proof.
  intros Hdry. unfold run_format_pipeline. rewrite Hdry.
  rewrite (bind_ok _ _ _ _ _ (list_disks_dry v st)). reflexivity.
Qed.

(** C2.  Without pre-authorisation, when the target is resolved and the
    line typed, stripped of surrounding white space, is not the token
    CONFIRM-<number>, [run_format_pipeline] raises the confirmation
    [RuntimeError]; no result dictionary is returned, and all the run has
    done is to query the catalogue and to prompt. *)
Theorem confirmation_mismatch_raises (args : Args) (st : St H)
    (disks : list DiskRecord) (st1 : St H) (target : DiskRecord) (cluster : option Z) :
  arg_yes args = false ->
  list_disks H v (arg_dry_run args) st = (Ok disks, st1) ->
  List.find (fun d => number d =? arg_disk args) disks = Some target ->
  ensure_safe_target v target = None ->
  select_cluster v args (resolve_fs args target) target = Ok cluster ->
  PyStr.strip (fst (read_line H (world st1)))
    <> "CONFIRM-" ++ PyStr.of_int (number target) ->
  exists st2 evs,
    run_format_pipeline H v args st =
      (Raise (mkExn RuntimeError (Msg.confirm_mismatch v)), st2)
    /\ trace st2 = (trace st ++ evs)%list /\ harmless evs.
Proof.
  intros Hyes Hl Hf Hs Hc Hneq.
  assert (Hk : confirm H v args target st1 =
               (Raise (mkExn RuntimeError (Msg.confirm_mismatch v)),
                mkSt (snd (read_line H (world st1))) (trace st1 ++ [Prompted]))).
  { unfold confirm. rewrite Hyes. unfold bind, input_stripped.
    destruct (read_line H (world st1)) as [line w]. simpl in *.
    apply String.eqb_neq in Hneq. rewrite Hneq. reflexivity. }
  destruct (only_queries_list_disks v _ _ _ _ Hl) as (ev1 & T1 & F1).
  exists (mkSt (snd (read_line H (world st1))) (trace st1 ++ [Prompted])).
  exists (ev1 ++ [Prompted])%list. split; [|split].
  - unfold run_format_pipeline.
    rewrite (bind_ok _ _ _ _ _ Hl). rewrite Hf, Hs.
    unfold resolve_fs in Hc.
    unfold lift_outcome at 1. unfold bind at 1. rewrite Hc.
    rewrite (bind_raise _ _ _ _ _ Hk). reflexivity.
  - simpl. rewrite T1, app_assoc. reflexivity.
  - apply harmless_app; [exact F1|]. constructor; [reflexivity | constructor].
Qed.

End Preflight.

(** * The [try] block *)

Section TryBlock.

Context {H : Host}.
Variable v : Variant.

Lemma call_eq {A} (m : Run H A) (r : PipelineResult) (st : St H) o st' :
  m st = (o, st') -> call H m (r, st) = (o, (r, st')).
Proof. intros E. unfold call. simpl. rewrite E. reflexivity. Qed.

(** ** Every exception of a step carries a text *)

Lemma raises_text_ret {S A} (a : A) : raises_text (S := S) (ret a).
Proof. intros s e s' E. discriminate. Qed.

Lemma raises_text_bind {S A B} (m : M S A) (k : A -> M S B) :
  raises_text m -> (forall a, raises_text (k a)) -> raises_text (bind m k).
Proof.
  intros Hm Hk s e s' E.
  destruct (bind_inv _ _ _ _ _ E) as [(a & s1 & E1 & E2) | (e' & E1 & E2)].
  - exact (Hk a _ _ _ E2).
  - inversion E2; subst. exact (Hm _ _ _ E1).
Qed.

Lemma raises_text_dismount_volumes (n : Z) (dry_run : bool) :
  raises_text (dismount_volumes H n dry_run).
Proof.
  apply raises_text_bind; [apply run_ps_raises_text | intros; apply raises_text_ret].
Qed.

Lemma raises_text_clear_and_init (n : Z) (style wipe : string) (dry_run : bool) :
  raises_text (clear_and_init H n style wipe dry_run).
Proof.
  unfold clear_and_init. apply raises_text_bind.
  - destruct (String.eqb wipe "zero-all"); [|apply raises_text_ret].
    apply raises_text_bind; [apply run_ps_raises_text | intros; apply raises_text_ret].
  - intros _. apply raises_text_bind;
      [apply run_ps_raises_text | intros; apply raises_text_ret].
Qed.

Lemma raises_text_create_partition_and_format (n : Z) (fs label : string)
    (cluster : option Z) (quick dry_run : bool) :
  raises_text (create_partition_and_format H n fs label cluster quick dry_run).
Proof.
  unfold create_partition_and_format.
  apply raises_text_bind; [apply run_ps_raises_text|]. intros p.
  destruct (PyStr.is_empty (stdout p)); [apply raises_text_ret|].
  apply raises_text_bind; [|intros; apply raises_text_ret].
  intros s e s'. unfold lift_outcome, last_item.
  destruct (PyStr.splitlines _); intros E; inversion E; subst; discriminate.
Qed.

Lemma raises_text_verify_volume (dl fs label : string) (dry_run : bool) :
  raises_text (verify_volume H dl fs label dry_run).
Proof.
  unfold verify_volume. destruct (PyStr.is_empty dl); [apply raises_text_ret|].
  apply raises_text_bind; [apply run_ps_raises_text|]. intros p.
  destruct (PyStr.is_empty _); [apply raises_text_ret|].
  destruct (PyStr.split_once _ _) as [[a b]|]; apply raises_text_ret.
Qed.

(** [test_io] raises nothing. *)
Lemma test_io_returns (dl : string) (size_mb : Z) (dry_run : bool) (st : St H) :
  exists res st', test_io H v dl size_mb dry_run st = (Ok res, st').
Proof.
  unfold test_io. destruct dry_run; [eexists; eexists; reflexivity|].
  destruct (match v with English => PyStr.is_empty dl | Italian => false end);
    [eexists; eexists; reflexivity|].
  destruct (write_test_file H (world st) dl size_mb) as [[sz|msg] w].
  - destruct (sz =? _); eexists; eexists; reflexivity.
  - eexists; eexists; reflexivity.
Qed.

Lemma verify_failed_text : Msg.verify_failed v <> "".
Proof. destruct v; discriminate. Qed.

Lemma io_failed_text (msg : string) : Msg.io_failed v msg <> "".
Proof. destruct v; discriminate. Qed.

(** ** Steps of the [try] block leave [status] and [error] alone *)

Lemma tidy_ret {A} (a : A) : tidy (H := H) (ret a).
Proof. intros s o s' E. inversion E; subst. repeat split. discriminate. Qed.

Lemma tidy_raise {A} (e : Exn) : exn_msg e <> "" -> tidy (H := H) (A := A) (raise e).
Proof.
  intros He s o s' E. inversion E; subst. repeat split.
  intros e' Eq. inversion Eq; subst. exact He.
Qed.

Lemma tidy_bind {A B} (m : Try H A) (k : A -> Try H B) :
  tidy m -> (forall a, tidy (k a)) -> tidy (bind m k).
Proof.
  intros Hm Hk s o s' E.
  destruct (bind_inv _ _ _ _ _ E) as [(a & s1 & E1 & E2) | (e & E1 & E2)].
  - destruct (Hm _ _ _ E1) as (S1 & R1 & _).
    destruct (Hk a _ _ _ E2) as (S2 & R2 & T2).
    repeat split; [congruence | congruence | exact T2].
  - destruct (Hm _ _ _ E1) as (S1 & R1 & T1).
    repeat split; [exact S1 | exact R1 |].
    subst o. intros e' Eq. inversion Eq; subst. apply T1. reflexivity.
Qed.

Lemma tidy_call {A} (m : Run H A) : raises_text m -> tidy (call H m).
Proof.
  intros Hm [r st] o [r' st']. unfold call. simpl.
  destruct (m st) as [o1 st1] eqn:E1. intros E. inversion E; subst.
  repeat split. intros e ->. exact (Hm _ _ _ E1).
Qed.

Lemma tidy_update (f : PipelineResult -> PipelineResult) :
  (forall r, r_status (f r) = r_status r /\ r_error (f r) = r_error r) ->
  tidy (update H f).
Proof.
  intros Hf s o s' E. inversion E; subst. simpl.
  destruct (Hf (fst s)). repeat split; try assumption. discriminate.
Qed.

Lemma tidy_try_body (args : Args) (target : DiskRecord) (fs label style : string)
    (cluster : option Z) :
  tidy (try_body H v args target fs label style cluster).
Proof.
  unfold try_body.
  apply tidy_bind; [apply tidy_call, raises_text_dismount_volumes|]. intros _.
  apply tidy_bind; [apply tidy_update; intros; split; reflexivity|]. intros _.
  apply tidy_bind; [apply tidy_call, raises_text_clear_and_init|]. intros _.
  apply tidy_bind; [apply tidy_update; intros; split; reflexivity|]. intros _.
  apply tidy_bind; [apply tidy_call, raises_text_create_partition_and_format|].
  intros dl.
  apply tidy_bind; [apply tidy_update; intros; split; reflexivity|]. intros _.
  apply tidy_bind; [apply tidy_update; intros; split; reflexivity|]. intros _.
  apply tidy_bind.
  { destruct (arg_skip_verify args); [apply tidy_ret | apply tidy_raise; discriminate]. }
  intros skip. apply tidy_bind.
  { destruct skip; [apply tidy_ret|].
    apply tidy_bind; [apply tidy_call, raises_text_verify_volume|]. intros ok.
    apply tidy_bind; [apply tidy_update; intros; split; reflexivity|]. intros _.
    destruct ok; [apply tidy_ret | apply tidy_raise, verify_failed_text]. }
  intros _. destruct (arg_test_io args); [|apply tidy_ret].
  apply tidy_bind.
  { apply tidy_call. intros st e st' E.
    destruct (test_io_returns dl (arg_test_io_size args) (arg_dry_run args) st)
      as (res & st1 & E1).
    rewrite E1 in E. discriminate. }
  intros res.
  apply tidy_bind; [apply tidy_update; intros; split; reflexivity|]. intros _.
  destruct (fst res); [apply tidy_ret | apply tidy_raise, io_failed_text].
Qed.

(** A dictionary returned by [run_format_pipeline] has status ERROR
    exactly when its [error] entry is there and not empty.  It is the
    dictionary of the [try] block as the block left it: with status OK and
    no [error] entry when the block ran to its end, with status ERROR and
    the text of the exception when the block raised. *)
Theorem returned_result_status_and_error (args : Args) (st : St H) r st' :
  run_format_pipeline H v args st = (Ok r, st') ->
  (r_status r = Some "ERROR" <-> exists msg, r_error r = Some msg /\ msg <> "")
  /\ exists target fs label style cluster st2 partial,
       resolved H v args st target fs label style cluster st2
       /\ ((try_body H v args target fs label style cluster
              (initial_result args target fs label style cluster, st2)
            = (Ok tt, (partial, st'))
            /\ r = set_status "OK" partial
            /\ r_status r = Some "OK" /\ r_error r = None)
           \/ (exists e,
                 try_body H v args target fs label style cluster
                   (initial_result args target fs label style cluster, st2)
                 = (Raise e, (partial, st'))
                 /\ r = set_error (exn_msg e) (set_status "ERROR" partial)
                 /\ r_status r = Some "ERROR" /\ r_error r = Some (exn_msg e)
                 /\ r_steps r = r_steps partial
                 /\ r_drive_letter r = r_drive_letter partial
                 /\ r_verify r = r_verify partial)).
Proof.
  intros E.
  destruct (run_format_pipeline_returns v _ _ _ _ E)
    as (target & fs & label & style & cluster & st2 & Hres & G).
  unfold guarded in G.
  destruct (try_body H v args target fs label style cluster
              (initial_result args target fs label style cluster, st2))
    as [[[]|e] [partial st3]] eqn:B;
    destruct (tidy_try_body _ _ _ _ _ _ _ _ _ B) as (S & R & T);
    simpl in S, R; inversion G; subst r st3; clear G.
  - split.
    + simpl. split; [discriminate|]. intros (msg & Hm & _).
      rewrite R in Hm. discriminate.
    + exists target, fs, label, style, cluster, st2, partial.
      split; [exact Hres|]. left. split; [exact B|].
      repeat split. simpl. exact R.
  - split.
    + simpl. split; [|reflexivity]. intros _. exists (exn_msg e).
      split; [reflexivity | apply T; reflexivity].
    + exists target, fs, label, style, cluster, st2, partial.
      split; [exact Hres|]. right. exists e. split; [exact B|]. repeat split.
Qed.

End TryBlock.

(** * Single steps *)

Section Steps.

Context {H : Host}.
Variable v : Variant.

Lemma update_then {B} (f : PipelineResult -> PipelineResult) (k : unit -> Try H B)
    (r : PipelineResult) (st : St H) :
  bind (update H f) k (r, st) = k tt (f r, st).
Proof. reflexivity. Qed.

Lemma dismount_volumes_exit_0 (n : Z) (st : St H) :
  returncode (fst (spawn H (world st) (DismountVolumes n))) = 0 ->
  dismount_volumes H n false st =
    (Ok tt, mkSt (snd (spawn H (world st) (DismountVolumes n)))
                 (trace st ++ [Spawned (DismountVolumes n)])).
Proof.
  intros Hrc. unfold dismount_volumes.
  rewrite (bind_ok _ _ _ _ _ (run_ps_exit_0 _ _ Hrc)). reflexivity.
Qed.

Lemma dismount_volumes_exit_nonzero (n : Z) (st : St H) :
  returncode (fst (spawn H (world st) (DismountVolumes n))) <> 0 ->
  dismount_volumes H n false st =
    (Raise (mkExn PSError (ps_error_text (fst (spawn H (world st) (DismountVolumes n))))),
     mkSt (snd (spawn H (world st) (DismountVolumes n)))
          (trace st ++ [Spawned (DismountVolumes n)])).
Proof.
  intros Hrc. unfold dismount_volumes.
  rewrite (bind_raise _ _ _ _ _ (run_ps_exit_nonzero _ _ Hrc)). reflexivity.
Qed.

Lemma clear_and_init_metadata_exit_0 (n : Z) (style : string) (st : St H) :
  returncode (fst (spawn H (world st) (ClearAndInitialize n style))) = 0 ->
  clear_and_init H n style "metadata" false st =
    (Ok tt, mkSt (snd (spawn H (world st) (ClearAndInitialize n style)))
                 (trace st ++ [Spawned (ClearAndInitialize n style)])).
Proof.
  intros Hrc. unfold clear_and_init. simpl String.eqb. cbv iota.
  unfold bind at 1. unfold ret at 1.
  rewrite (bind_ok _ _ _ _ _ (run_ps_exit_0 _ _ Hrc)). reflexivity.
Qed.

Lemma create_partition_and_format_letter_E (n : Z) (fs label : string)
    (cluster : option Z) (quick : bool) (st : St H) :
  let script := NewPartitionAndFormat n fs label (nonzero cluster) quick in
  returncode (fst (spawn H (world st) script)) = 0 ->
  PyStr.strip (stdout (fst (spawn H (world st) script))) = "E" ->
  create_partition_and_format H n fs label cluster quick false st =
    (Ok "E", mkSt (snd (spawn H (world st) script)) (trace st ++ [Spawned script])).
Proof.
  intros script Hrc Hout. unfold create_partition_and_format. fold script.
  rewrite (bind_ok _ _ _ _ _ (run_ps_exit_0 _ _ Hrc)).
  destruct (stdout (fst (spawn H (world st) script))) eqn:Eo; [discriminate|].
  simpl PyStr.is_empty. cbv iota. rewrite Hout. reflexivity.
Qed.

Lemma verify_volume_match (dl fs label out_fs : string) (st : St H) :
  PyStr.is_empty dl = false ->
  returncode (fst (spawn H (world st) (GetVolume dl))) = 0 ->
  PyStr.split_once "|" (PyStr.strip (stdout (fst (spawn H (world st) (GetVolume dl)))))
    = Some (out_fs, label) ->
  PyStr.upper out_fs = PyStr.upper fs ->
  verify_volume H dl fs label false st =
    (Ok true, mkSt (snd (spawn H (world st) (GetVolume dl)))
                   (trace st ++ [Spawned (GetVolume dl)])).
Proof.
  intros Hdl Hrc Hsplit Hfs. unfold verify_volume. rewrite Hdl.
  rewrite (bind_ok _ _ _ _ _ (run_ps_exit_0 _ _ Hrc)).
  destruct (PyStr.strip (stdout (fst (spawn H (world st) (GetVolume dl))))) eqn:Eo;
    [discriminate|].
  simpl PyStr.is_empty. cbv iota. rewrite Hsplit, Hfs.
  rewrite !String.eqb_refl. reflexivity.
Qed.

(** The [try] block after its three steps: the dictionary holds the
    three names and the drive letter. *)
Lemma try_body_no_attribute (args : Args) (target : DiskRecord) (fs label style : string)
    (cluster : option Z) (r0 : PipelineResult) (s0 sa sb sc : St H) (dl : string) :
  arg_skip_verify args = None ->
  dismount_volumes H (number target) (arg_dry_run args) s0 = (Ok tt, sa) ->
  clear_and_init H (number target) style (arg_wipe args) (arg_dry_run args) sa
    = (Ok tt, sb) ->
  create_partition_and_format H (number target) fs label cluster (arg_quick args)
    (arg_dry_run args) sb = (Ok dl, sc) ->
  try_body H v args target fs label style cluster (r0, s0) =
    (Raise (mkExn AttributeError Msg.no_skip_verify),
     (add_step "create_partition_and_format"
        (set_drive_letter dl
           (add_step "clear_and_init" (add_step "dismount_volumes" r0))),
      sc)).
Proof.
  intros Hskip Ha Hb Hc. unfold try_body.
  rewrite (bind_ok _ _ _ _ _ (call_eq _ _ _ _ _ Ha)). rewrite update_then.
  rewrite (bind_ok _ _ _ _ _ (call_eq _ _ _ _ _ Hb)). rewrite update_then.
  rewrite (bind_ok _ _ _ _ _ (call_eq _ _ _ _ _ Hc)). rewrite !update_then.
  rewrite Hskip. reflexivity.
Qed.

(** Verification skipped, no I/O test. *)
Lemma try_body_skipped (args : Args) (target : DiskRecord) (fs label style : string)
    (cluster : option Z) (r0 : PipelineResult) (s0 sa sb sc : St H) (dl : string) :
  arg_skip_verify args = Some true ->
  arg_test_io args = false ->
  dismount_volumes H (number target) (arg_dry_run args) s0 = (Ok tt, sa) ->
  clear_and_init H (number target) style (arg_wipe args) (arg_dry_run args) sa
    = (Ok tt, sb) ->
  create_partition_and_format H (number target) fs label cluster (arg_quick args)
    (arg_dry_run args) sb = (Ok dl, sc) ->
  try_body H v args target fs label style cluster (r0, s0) =
    (Ok tt,
     (add_step "create_partition_and_format"
        (set_drive_letter dl
           (add_step "clear_and_init" (add_step "dismount_volumes" r0))),
      sc)).
Proof.
  intros Hskip Hio Ha Hb Hc. unfold try_body.
  rewrite (bind_ok _ _ _ _ _ (call_eq _ _ _ _ _ Ha)). rewrite update_then.
  rewrite (bind_ok _ _ _ _ _ (call_eq _ _ _ _ _ Hb)). rewrite update_then.
  rewrite (bind_ok _ _ _ _ _ (call_eq _ _ _ _ _ Hc)). rewrite !update_then.
  rewrite Hskip, Hio. reflexivity.
Qed.

(** Verification on, no I/O test: the block ends as [verify_volume]
    decides. *)
Lemma try_body_verify_outcome (args : Args) (target : DiskRecord)
    (fs label style : string) (cluster : option Z) (r0 : PipelineResult)
    (s0 sa sb sc sd : St H) (dl : string) (o : Outcome bool) :
  arg_skip_verify args = Some false ->
  arg_test_io args = false ->
  dismount_volumes H (number target) (arg_dry_run args) s0 = (Ok tt, sa) ->
  clear_and_init H (number target) style (arg_wipe args) (arg_dry_run args) sa
    = (Ok tt, sb) ->
  create_partition_and_format H (number target) fs label cluster (arg_quick args)
    (arg_dry_run args) sb = (Ok dl, sc) ->
  verify_volume H dl fs label (arg_dry_run args) sc = (o, sd) ->
  let r3 := add_step "create_partition_and_format"
              (set_drive_letter dl
                 (add_step "clear_and_init" (add_step "dismount_volumes" r0))) in
  try_body H v args target fs label style cluster (r0, s0) =
    match o with
    | Ok true => (Ok tt, (set_verify "OK" r3, sd))
    | Ok false =>
        (Raise (mkExn RuntimeError (Msg.verify_failed v)), (set_verify "FAILED" r3, sd))
    | Raise e => (Raise e, (r3, sd))
    end.
Proof.
  intros Hskip Hio Ha Hb Hc Hd r3. unfold try_body.
  rewrite (bind_ok _ _ _ _ _ (call_eq _ _ _ _ _ Ha)). rewrite update_then.
  rewrite (bind_ok _ _ _ _ _ (call_eq _ _ _ _ _ Hb)). rewrite update_then.
  rewrite (bind_ok _ _ _ _ _ (call_eq _ _ _ _ _ Hc)). rewrite !update_then.
  rewrite Hskip, Hio. fold r3.
  unfold bind at 1. unfold ret at 1.
  unfold bind at 1.
  destruct o as [ok|e].
  - rewrite (bind_ok _ _ _ _ _ (call_eq _ _ _ _ _ Hd)). rewrite update_then.
    destruct ok; reflexivity.
  - rewrite (bind_raise _ _ _ _ _ (call_eq _ _ _ _ _ Hd)). reflexivity.
Qed.


(** C7.  A dismount script that exits with a status other than 0 is not
    suppressed: [run_ps] raises [PSError], which the [try] block turns
    into status ERROR with the error text of the process; no step is
    recorded, no drive letter, and nothing is spawned after the dismount
    script. *)
Theorem dismount_failure_aborts_run (args : Args) (st : St H) (target : DiskRecord)
    (fs label style : string) (cluster : option Z) (st2 : St H) :
  resolved H v args st target fs label style cluster st2 ->
  arg_dry_run args = false ->
  returncode (fst (spawn H (world st2) (DismountVolumes (number target)))) <> 0 ->
  exists r st3,
    run_format_pipeline H v args st = (Ok r, st3)
    /\ r_status r = Some "ERROR"
    /\ r_error r =
         Some (ps_error_text (fst (spawn H (world st2) (DismountVolumes (number target)))))
    /\ r_error r <> Some ""
    /\ r_steps r = [] /\ r_drive_letter r = None
    /\ trace st3 = (trace st2 ++ [Spawned (DismountVolumes (number target))])%list.
Proof.
  intros Hres Hdry Hrc.
  rewrite (run_format_pipeline_resolved v _ _ _ _ _ _ _ _ Hres).
  unfold guarded, try_body. rewrite Hdry.
  rewrite (bind_raise _ _ _ _ _
             (call_eq _ _ _ _ _ (dismount_volumes_exit_nonzero _ _ Hrc))).
  eexists. eexists. split; [reflexivity|]. simpl. repeat split.
  intros E. inversion E as [E']. exact (ps_error_text_not_empty _ E').
Qed.

(** C9.  [parse_args] declares no option skip_verify, and the [try] block
    reads [args.skip_verify] after its third step.  So on a namespace
    without that attribute a run whose three steps all succeed does not
    end with status OK: the dictionary comes back with the three steps and
    the drive letter recorded, status ERROR, and the text of the
    [AttributeError] as its error. *)
Theorem undeclared_skip_verify_ends_in_error (args : Args) (st : St H)
    (target : DiskRecord) (fs label style : string) (cluster : option Z)
    (st2 sa sb sc : St H) (dl : string) :
  resolved H v args st target fs label style cluster st2 ->
  arg_skip_verify args = None ->
  dismount_volumes H (number target) (arg_dry_run args) st2 = (Ok tt, sa) ->
  clear_and_init H (number target) style (arg_wipe args) (arg_dry_run args) sa
    = (Ok tt, sb) ->
  create_partition_and_format H (number target) fs label cluster (arg_quick args)
    (arg_dry_run args) sb = (Ok dl, sc) ->
  exists r,
    run_format_pipeline H v args st = (Ok r, sc)
    /\ r_steps r = ["dismount_volumes"; "clear_and_init"; "create_partition_and_format"]
    /\ r_drive_letter r = Some dl
    /\ r_status r = Some "ERROR"
    /\ r_status r <> Some "OK"
    /\ r_error r = Some "'Namespace' object has no attribute 'skip_verify'"
    /\ r_verify r = None /\ r_test_io r = None.
Proof.
  intros Hres Hskip Ha Hb Hc.
  rewrite (run_format_pipeline_resolved v _ _ _ _ _ _ _ _ Hres).
  unfold guarded.
  rewrite (try_body_no_attribute args target fs label style cluster _ st2 sa sb sc dl
             Hskip Ha Hb Hc).
  eexists. split; [reflexivity|]. simpl. repeat split. discriminate.
Qed.

End Steps.

(** * The policy of the graphical front end *)

(** The worker never goes on with FAT32 unless the size is known and at
    most 32 GiB, whether FAT32 was asked for, chosen by AUTO or forced by
    the camera profile. *)
Lemma gui_fat32_needs_32GiB (int_of_str : string -> option Z) (fs_arg : string)
    (cam_compat : bool) (cluster_label : string) (size_bytes : option Z)
    (cluster_bytes : option Z) :
  Gui.resolve_policy int_of_str fs_arg cam_compat cluster_label size_bytes
    = Ok ("FAT32", cluster_bytes) ->
  exists s, size_bytes = Some s /\ s <= 32 * 1024 ^ 3.
Proof.
  unfold Gui.resolve_policy.
  destruct size_bytes as [s|].
  - destruct (Z.leb_spec s (32 * 1024 ^ 3)); [intros _; eauto|].
    destruct (String.eqb (PyStr.upper fs_arg) "AUTO"), cam_compat; simpl;
      repeat match goal with
             | |- context [Gui.cluster_bytes_from_label ?f ?l] =>
                 destruct (Gui.cluster_bytes_from_label f l)
             | |- context [String.eqb ?a "FAT32"] =>
                 destruct (String.eqb_spec a "FAT32")
             end; simpl; intros E; inversion E; subst; try discriminate; congruence.
  - destruct (String.eqb (PyStr.upper fs_arg) "AUTO"), cam_compat; simpl;
      repeat match goal with
             | |- context [Gui.cluster_bytes_from_label ?f ?l] =>
                 destruct (Gui.cluster_bytes_from_label f l)
             | |- context [String.eqb ?a "FAT32"] =>
                 destruct (String.eqb_spec a "FAT32")
             end; simpl; intros E; inversion E; subst; try discriminate; congruence.
Qed.

(** With the camera profile the worker settles on FAT32 whenever the size
    is known and at most 32 GiB, and on 32768 bytes in any case. *)
Lemma gui_camera_profile_forces (int_of_str : string -> option Z) (fs_arg : string)
    (cluster_label : string) :
  (forall s, s <= 32 * 1024 ^ 3 ->
     Gui.resolve_policy int_of_str fs_arg true cluster_label (Some s)
       = Ok ("FAT32", Some 32768))
  /\ (forall size_bytes fs cluster_bytes,
        Gui.resolve_policy int_of_str fs_arg true cluster_label size_bytes
          = Ok (fs, cluster_bytes) ->
        cluster_bytes = Some 32768).
Proof.
  split.
  - intros s Hs. unfold Gui.resolve_policy. apply Z.leb_le in Hs. rewrite Hs.
    reflexivity.
  - intros size_bytes fs c. unfold Gui.resolve_policy.
    destruct (match size_bytes with Some s => s <=? 32 * 1024 ^ 3 | None => false end);
      destruct (String.eqb (PyStr.upper fs_arg) "AUTO"); simpl;
      repeat match goal with
             | |- context [String.eqb ?a "FAT32"] => destruct (String.eqb a "FAT32")
             end; simpl; intros E; inversion E; reflexivity.
Qed.

(** C5.  The camera profile forces the file system and the cluster in the
    graphical worker, and only there.  In the worker, with the profile on,
    policy resolution ends with 32768 bytes whatever cluster was asked
    for, and with FAT32 whenever the size of the card is known and at most
    32 GiB, whatever file system was asked for; on a larger card, or one
    whose size is not known, it keeps the file system asked for (exFAT
    under AUTO) and refuses FAT32.  On the command line the profile only
    shapes the label: file system and cluster are the same with the
    profile on and off. *)
Theorem camera_profile_forces_in_gui_only (int_of_str : string -> option Z)
    (fs_arg cluster_label : string) :
  (forall s, s <= 32 * 1024 ^ 3 ->
     Gui.resolve_policy int_of_str fs_arg true cluster_label (Some s)
       = Ok ("FAT32", Some 32768))
  /\ (forall size_bytes fs cluster_bytes,
        Gui.resolve_policy int_of_str fs_arg true cluster_label size_bytes
          = Ok (fs, cluster_bytes) ->
        cluster_bytes = Some 32768)
  /\ (forall size_bytes,
        match size_bytes with Some s => 32 * 1024 ^ 3 < s | None => True end ->
        Gui.resolve_policy int_of_str fs_arg true cluster_label size_bytes
          = (let fs := if String.eqb (PyStr.upper fs_arg) "AUTO" then "exFAT"
                       else PyStr.upper fs_arg in
             if String.eqb fs "FAT32" then Raise (mkExn RuntimeError Gui.fat32_too_large)
             else Ok (fs, Some 32768)))
  /\ (forall (v : Variant) (args : Args) (target : DiskRecord) (b : bool) (fs : string),
        resolve_fs (Scripted.with_camera_compat b args) target = resolve_fs args target
        /\ select_cluster v (Scripted.with_camera_compat b args) fs target
           = select_cluster v args fs target).
Proof.
  destruct (gui_camera_profile_forces int_of_str fs_arg cluster_label) as [Hfat Hcl].
  split; [exact Hfat|]. split; [exact Hcl|]. split.
  - intros size_bytes Hbig. unfold Gui.resolve_policy.
    assert (Hfits : match size_bytes with
                    | Some s => s <=? 32 * 1024 ^ 3
                    | None => false
                    end = false).
    { destruct size_bytes as [s|]; [apply Z.leb_gt; exact Hbig | reflexivity]. }
    rewrite Hfits. cbv zeta.
    destruct (String.eqb (PyStr.upper fs_arg) "AUTO"); [reflexivity|].
    destruct (String.eqb (PyStr.upper fs_arg) "FAT32"); reflexivity.
  - intros v args target b fs. split; reflexivity.
Qed.

Lemma camera_profile_forces_in_gui_only_witness :
  16000000000 <= 32 * 1024 ^ 3
  /\ Gui.resolve_policy (fun _ => None) "exFAT" true "4 KB" (Some 16000000000)
     = Ok ("FAT32", Some 32768).
Proof.
  split; [vm_compute; discriminate|].
  apply (camera_profile_forces_in_gui_only (fun _ => None) "exFAT" "4 KB").
  vm_compute. discriminate.
Defined.

(** * Runs against the scripted executor *)

(** C4.  The command-line pipeline asked for FAT32 on a card of
    64 000 000 000 bytes raises nothing: in both front ends it clears the
    disk and formats it as FAT32.  On the same request the graphical
    worker raises before its first step. *)
Theorem cli_formats_fat32_above_32GiB (v : Variant) :
  let args := Scripted.with_fs "FAT32" Scripted.request in
  let out := Scripted.run v Scripted.card64 args in
  (exists r, fst out = Ok r /\ r_fs r = "FAT32" /\ r_size r = 64000000000
             /\ r_steps r = all_steps)
  /\ trace (snd out) =
       [Spawned GetDisk; Spawned (GetPartition 3); Spawned (GetVolumeLetters 3);
        Spawned (DismountVolumes 3); Spawned (ClearAndInitialize 3 "MBR");
        Spawned (NewPartitionAndFormat 3 "FAT32" "GOPRO" None true);
        Spawned (GetVolume "E")]
  /\ Gui.resolve_policy (fun _ => None) "FAT32" true "Auto" (Some 64000000000)
     = Raise (mkExn RuntimeError Gui.fat32_too_large).
Proof.
  destruct v; (split; [eexists; split; [reflexivity|]; repeat split | split; reflexivity]).
Qed.

(** C5, as stated, fails on the command line: with the camera profile on
    and exFAT asked for on a card of 16 000 000 000 bytes, which FAT32
    would fit, both front ends keep exFAT and the default cluster size and
    hand just that to the format script. *)
Lemma cli_camera_profile_keeps_fs_and_cluster :
  arg_camera_compat (Scripted.with_fs "exFAT" Scripted.parsed) = true
  /\ (exists r,
        fst (Scripted.run English Scripted.card16
               (Scripted.with_fs "exFAT" Scripted.parsed)) = Ok r
        /\ r_fs r = "EXFAT" /\ r_cluster r = None /\ r_camera_compat r = true)
  /\ (exists r,
        fst (Scripted.run Italian Scripted.card16
               (Scripted.with_fs "exFAT" Scripted.parsed)) = Ok r
        /\ r_fs r = "EXFAT" /\ r_cluster r = None /\ r_camera_compat r = true)
  /\ In (Spawned (NewPartitionAndFormat 3 "EXFAT" "GOPRO" None true))
        (trace (snd (Scripted.run English Scripted.card16
                       (Scripted.with_fs "exFAT" Scripted.parsed))))
  /\ In (Spawned (NewPartitionAndFormat 3 "EXFAT" "GOPRO" None true))
        (trace (snd (Scripted.run Italian Scripted.card16
                       (Scripted.with_fs "exFAT" Scripted.parsed)))).
Proof.
  split; [reflexivity|].
  split; [eexists; split; [reflexivity|]; repeat split|].
  split; [eexists; split; [reflexivity|]; repeat split|].
  split; vm_compute; tauto.
Qed.

(** A dry run on the scripted machine: the run stops at the enumeration. *)
Lemma dry_run_stops_at_enumeration_witness :
  arg_dry_run (Scripted.with_dry_run true Scripted.request) = true
  /\ Scripted.run English Scripted.card32 (Scripted.with_dry_run true Scripted.request)
     = (Raise (mkExn ValueError "Disk #3 not found."), Scripted.start Scripted.card32).
Proof.
  split; [reflexivity|].
  apply (dry_run_stops_at_enumeration (H := Scripted.host Scripted.card32) English
           (Scripted.with_dry_run true Scripted.request) (Scripted.start Scripted.card32)).
  reflexivity.
Defined.

(** The graphical worker, for comparison, finishes its dry run: this is
    the policy it reaches with the same request. *)
Lemma gui_dry_run_policy :
  Gui.resolve_policy (fun _ => None) "AUTO" true "Auto" (Some 32000000000)
  = Ok ("FAT32", Some 32768).
Proof. reflexivity. Qed.

(** C2, as stated, fails: with the token mistyped the run returns no
    dictionary at all, so none with status ERROR and no steps. *)
Lemma mistyped_token_returns_no_result :
  ~ exists r st',
      Scripted.run English Scripted.mistyped (Scripted.with_yes false Scripted.request)
        = (Ok r, st')
      /\ r_status r = Some "ERROR" /\ r_steps r = [].
Proof. intros (r & st' & E & _). vm_compute in E. discriminate. Qed.

Lemma confirmation_mismatch_raises_witness :
  exists st2 evs,
    Scripted.run English Scripted.mistyped (Scripted.with_yes false Scripted.request)
      = (Raise (mkExn RuntimeError "Confirmation mismatch. Operation cancelled."), st2)
    /\ trace st2 = (trace (Scripted.start Scripted.mistyped) ++ evs)%list
    /\ harmless evs
    /\ world st2 = ["E"].
Proof.
  destruct (confirmation_mismatch_raises (H := Scripted.host Scripted.mistyped) English
              (Scripted.with_yes false Scripted.request)
              (Scripted.start Scripted.mistyped)
              [mkDisk 3 32000000000 false false false ["E"]]
              (mkSt (H := Scripted.host Scripted.mistyped) ["E"]
                 [Spawned GetDisk; Spawned (GetPartition 3); Spawned (GetVolumeLetters 3)])
              (mkDisk 3 32000000000 false false false ["E"]) None)
    as (st2 & evs & E & T & F);
    [reflexivity | reflexivity | reflexivity | reflexivity | reflexivity
    | vm_compute; discriminate |].
  exists st2, evs. split; [exact E|]. split; [exact T|]. split; [exact F|].
  vm_compute in E. inversion E. reflexivity.
Defined.

(** The token is compared after stripping: typed with blanks around it,
    it is accepted and the run goes on to format the card. *)
Lemma padded_token_is_accepted :
  let sc := Scripted.mkScenario 32000000000 false " CONFIRM-3 " 0 "E" "FAT32|GOPRO" in
  exists r, fst (Scripted.run English sc (Scripted.with_yes false Scripted.request)) = Ok r
            /\ r_status r = Some "OK" /\ r_steps r = all_steps.
Proof. eexists. split; [reflexivity|]. split; reflexivity. Qed.

(** C6, as stated, fails.  On the namespace [parse_args] builds the run
    of the scenario ends with status ERROR; with verification switched on
    by hand it ends with status OK; either way it records three steps,
    none of them called verify, and leaves the cluster at the default. *)
Lemma scenario_steps_have_no_verify :
  (exists r, fst (Scripted.run English Scripted.card32 Scripted.parsed) = Ok r
             /\ r_status r = Some "ERROR"
             /\ r_steps r = ["dismount_volumes"; "clear_and_init";
                             "create_partition_and_format"]
             /\ r_cluster r = None)
  /\ (exists r, fst (Scripted.run English Scripted.card32 Scripted.request) = Ok r
                /\ r_status r = Some "OK"
                /\ r_steps r = ["dismount_volumes"; "clear_and_init";
                                "create_partition_and_format"]
                /\ r_cluster r = None)
  /\ ~ (exists skip_verify r st',
          Scripted.run English Scripted.card32
            (Scripted.with_skip_verify skip_verify Scripted.request) = (Ok r, st')
          /\ r_steps r = ["dismount_volumes"; "clear_and_init";
                          "create_partition_and_format"; "verify"]).
Proof.
  split; [eexists; split; [reflexivity|]; repeat split|].
  split; [eexists; split; [reflexivity|]; repeat split|].
  intros (sv & r & st' & E & S).
  destruct sv as [[|]|]; vm_compute in E; inversion E; subst; discriminate.
Qed.

(** The failing input of C7: when the dismount script exits with status 5
    the run ends with status ERROR and the error text of the script, no
    step recorded; the clearing and the formatting scripts are never
    spawned, and the volume is still mounted. *)
Lemma failed_dismount_stops_the_run :
  let out := Scripted.run English Scripted.locked Scripted.parsed in
  (exists r, fst out = Ok r /\ r_status r = Some "ERROR"
             /\ r_error r = Some "Access is denied." /\ r_steps r = [])
  /\ trace (snd out) =
       [Spawned GetDisk; Spawned (GetPartition 3); Spawned (GetVolumeLetters 3);
        Spawned (DismountVolumes 3)]
  /\ world (snd out) = ["E"].
Proof.
  split; [eexists; split; [reflexivity|]; repeat split | split; reflexivity].
Qed.

Lemma dismount_failure_aborts_run_witness :
  exists r st3,
    Scripted.run English Scripted.locked Scripted.parsed = (Ok r, st3)
    /\ r_status r = Some "ERROR"
    /\ r_error r = Some "Access is denied."
    /\ r_steps r = [] /\ r_drive_letter r = None.
Proof.
  destruct (dismount_failure_aborts_run (H := Scripted.host Scripted.locked) English
              Scripted.parsed (Scripted.start Scripted.locked)
              (mkDisk 3 32000000000 false false false ["E"]) "FAT32" "GOPRO" "MBR" None
              (mkSt (H := Scripted.host Scripted.locked) ["E"]
                 [Spawned GetDisk; Spawned (GetPartition 3);
                  Spawned (GetVolumeLetters 3)]))
    as (r & st3 & E & S & R & _ & P & D & _).
  - exists [mkDisk 3 32000000000 false false false ["E"]].
    eexists. repeat split; reflexivity.
  - reflexivity.
  - vm_compute. discriminate.
  - exists r, st3. repeat split; assumption.
Defined.

Lemma returned_result_status_and_error_witness :
  exists r st',
    Scripted.run English Scripted.locked Scripted.request = (Ok r, st')
    /\ (r_status r = Some "ERROR" <-> exists msg, r_error r = Some msg /\ msg <> "").
Proof.
  destruct (Scripted.run English Scripted.locked Scripted.request) as [[r|e] st'] eqn:E;
    [|vm_compute in E; discriminate].
  exists r, st'. split; [reflexivity|].
  exact (proj1 (returned_result_status_and_error (H := Scripted.host Scripted.locked)
                  English Scripted.request (Scripted.start Scripted.locked) r st' E)).
Defined.

(** The failing input of C9: the card of the scenario, on which every
    script succeeds, and the namespace as [parse_args] builds it. *)
Lemma missing_skip_verify_keeps_partial_result :
  exists r,
    fst (Scripted.run English Scripted.card32 Scripted.parsed) = Ok r
    /\ r_status r = Some "ERROR"
    /\ r_error r = Some "'Namespace' object has no attribute 'skip_verify'"
    /\ r_steps r = all_steps
    /\ r_drive_letter r = Some "E".
Proof. eexists. split; [reflexivity|]. repeat split. Qed.

Lemma undeclared_skip_verify_ends_in_error_witness :
  exists r st',
    Scripted.run English Scripted.card32 Scripted.parsed = (Ok r, st')
    /\ r_steps r = ["dismount_volumes"; "clear_and_init"; "create_partition_and_format"]
    /\ r_drive_letter r = Some "E"
    /\ r_status r = Some "ERROR"
    /\ r_error r = Some "'Namespace' object has no attribute 'skip_verify'".
Proof.
  edestruct (undeclared_skip_verify_ends_in_error (H := Scripted.host Scripted.card32)
               English Scripted.parsed (Scripted.start Scripted.card32)
               (mkDisk 3 32000000000 false false false ["E"]) "FAT32" "GOPRO" "MBR" None
               (mkSt (H := Scripted.host Scripted.card32) ["E"]
                  [Spawned GetDisk; Spawned (GetPartition 3);
                   Spawned (GetVolumeLetters 3)]))
    as (r & E & S & D & T & _ & R & _).
  - exists [mkDisk 3 32000000000 false false false ["E"]].
    eexists. repeat split; reflexivity.
  - reflexivity.
  - reflexivity.
  - reflexivity.
  - reflexivity.
  - eexists r, _. split; [exact E|]. repeat split; assumption.
Defined.

(** * Labels: when a second call changes nothing *)

Module LabelFacts.

Ltac each_char c :=
  destruct c as [[] [] [] [] [] [] [] []]; vm_compute; try reflexivity;
  try discriminate; try (intros; discriminate); try (intros; reflexivity).

Lemma camera_space_is_blank (c : ascii) :
  camera_char c = true -> PyStr.is_space c = blank c.
Proof. each_char c. Qed.

Lemma camera_upper (c : ascii) :
  camera_char c = true -> PyStr.upper_char c = String c EmptyString.
Proof. each_char c. Qed.

Lemma camera_no_quote (c : ascii) :
  camera_char c = true ->
  negb (Ascii.eqb c PyStr.squote) = true /\ negb (Ascii.eqb c PyStr.dquote) = true.
Proof. each_char c; intros; split; reflexivity. Qed.

Lemma general_space_is_blank (c : ascii) :
  general_char c = true -> PyStr.is_space c = blank c.
Proof. each_char c. Qed.

Lemma general_no_dquote (c : ascii) :
  general_char c = true -> negb (Ascii.eqb c PyStr.dquote) = true.
Proof. each_char c. Qed.

Lemma blank_is_space (c : ascii) : blank c = true -> PyStr.is_space c = true.
Proof. each_char c. Qed.

Lemma blank_is_dot_or_blank (c : ascii) : blank c = true -> dot_or_blank c = true.
Proof. each_char c. Qed.

(** ** Stripping *)

Lemma lstrip_by_fixed (p : ascii -> bool) (s : string) :
  first_is p s = false -> PyStr.lstrip_by p s = s.
Proof. destruct s as [|c r]; simpl; [reflexivity|]. intros ->. reflexivity. Qed.

Lemma rstrip_by_fixed (p : ascii -> bool) (s : string) :
  last_is p s = false -> PyStr.rstrip_by p s = s.
Proof.
  induction s as [|c r IH]; simpl; [reflexivity|].
  destruct r as [|d r'].
  - intros ->. reflexivity.
  - intros Hl. rewrite (IH Hl). simpl. rewrite andb_false_r. reflexivity.
Qed.

Lemma strip_by_fixed (p : ascii -> bool) (s : string) :
  first_is p s = false -> last_is p s = false -> PyStr.strip_by p s = s.
Proof.
  intros Hf Hl. unfold PyStr.strip_by. rewrite (lstrip_by_fixed p s Hf).
  apply rstrip_by_fixed. exact Hl.
Qed.

Lemma first_is_lstrip_by (p : ascii -> bool) (s : string) :
  first_is p (PyStr.lstrip_by p s) = false.
Proof.
  induction s as [|c r IH]; simpl; [reflexivity|].
  destruct (p c) eqn:E; [exact IH | simpl; exact E].
Qed.

Lemma first_is_rstrip_by (p q : ascii -> bool) (s : string) :
  first_is q s = false -> first_is q (PyStr.rstrip_by p s) = false.
Proof.
  destruct s as [|c r]; simpl; [reflexivity|]. intros Hq.
  destruct (p c && PyStr.is_empty (PyStr.rstrip_by p r))%bool; simpl; [reflexivity | exact Hq].
Qed.

Lemma first_is_strip_by (p : ascii -> bool) (s : string) :
  first_is p (PyStr.strip_by p s) = false.
Proof. apply first_is_rstrip_by, first_is_lstrip_by. Qed.

Lemma all_chars_lstrip_by (p q : ascii -> bool) (s : string) :
  all_chars q s = true -> all_chars q (PyStr.lstrip_by p s) = true.
Proof.
  induction s as [|c r IH]; simpl; [reflexivity|]. intros Hq.
  apply andb_prop in Hq. destruct Hq as [Hc Hr].
  destruct (p c); [exact (IH Hr) | simpl; rewrite Hc, Hr; reflexivity].
Qed.

Lemma all_chars_rstrip_by (p q : ascii -> bool) (s : string) :
  all_chars q s = true -> all_chars q (PyStr.rstrip_by p s) = true.
Proof.
  induction s as [|c r IH]; simpl; [reflexivity|]. intros Hq.
  apply andb_prop in Hq. destruct Hq as [Hc Hr].
  destruct (p c && PyStr.is_empty (PyStr.rstrip_by p r))%bool; simpl; [reflexivity|].
  rewrite Hc, (IH Hr). reflexivity.
Qed.

Lemma all_chars_strip_by (p q : ascii -> bool) (s : string) :
  all_chars q s = true -> all_chars q (PyStr.strip_by p s) = true.
Proof. intros Hq. apply all_chars_rstrip_by, all_chars_lstrip_by, Hq. Qed.

(** ** Cutting *)

Lemma prefix_n_fixed (n : nat) (s : string) :
  (String.length s <= n)%nat -> PyStr.prefix_n n s = s.
Proof.
  revert s. induction n as [|n IH]; intros [|c r]; simpl; intros Hn;
    try reflexivity; [inversion Hn|].
  rewrite IH; [reflexivity | apply le_S_n; exact Hn].
Qed.

Lemma prefix_n_length (n : nat) (s : string) :
  (String.length (PyStr.prefix_n n s) <= n)%nat.
Proof.
  revert s. induction n as [|n IH]; intros [|c r]; simpl;
    auto using le_n_S, Nat.le_0_l.
Qed.

Lemma all_chars_prefix_n (q : ascii -> bool) (n : nat) (s : string) :
  all_chars q s = true -> all_chars q (PyStr.prefix_n n s) = true.
Proof.
  revert s. induction n as [|n IH]; intros [|c r]; simpl; try reflexivity.
  intros Hq. apply andb_prop in Hq. destruct Hq as [Hc Hr].
  rewrite Hc, (IH r Hr). reflexivity.
Qed.

Lemma first_is_prefix_n (q : ascii -> bool) (n : nat) (s : string) :
  first_is q s = false -> first_is q (PyStr.prefix_n n s) = false.
Proof. destruct n, s; simpl; auto. Qed.

(** ** Filtering and mapping *)

Lemma filter_fixed (p : ascii -> bool) (s : string) :
  all_chars p s = true -> PyStr.filter p s = s.
Proof.
  induction s as [|c r IH]; simpl; [reflexivity|]. intros Hp.
  apply andb_prop in Hp. destruct Hp as [Hc Hr]. rewrite Hc, (IH Hr). reflexivity.
Qed.

Lemma all_chars_filter (p : ascii -> bool) (s : string) :
  all_chars p (PyStr.filter p s) = true.
Proof.
  induction s as [|c r IH]; simpl; [reflexivity|].
  destruct (p c) eqn:E; simpl; [rewrite E, IH; reflexivity | exact IH].
Qed.

Lemma all_chars_filter_keeps (p q : ascii -> bool) (s : string) :
  all_chars q s = true -> all_chars q (PyStr.filter p s) = true.
Proof.
  induction s as [|c r IH]; simpl; [reflexivity|]. intros Hq.
  apply andb_prop in Hq. destruct Hq as [Hc Hr].
  destruct (p c); simpl; [rewrite Hc, (IH Hr); reflexivity | exact (IH Hr)].
Qed.

Lemma all_chars_weaken (p q : ascii -> bool) (s : string) :
  (forall c, p c = true -> q c = true) -> all_chars p s = true -> all_chars q s = true.
Proof.
  intros Hpq. induction s as [|c r IH]; simpl; [reflexivity|]. intros Hp.
  apply andb_prop in Hp. destruct Hp as [Hc Hr]. rewrite (Hpq c Hc), (IH Hr). reflexivity.
Qed.

Lemma all_chars_and (p q : ascii -> bool) (s : string) :
  all_chars p s = true -> all_chars q s = true ->
  all_chars (fun c => (p c && q c)%bool) s = true.
Proof.
  induction s as [|c r IH]; simpl; [reflexivity|]. intros Hp Hq.
  apply andb_prop in Hp. destruct Hp as [Hc Hr].
  apply andb_prop in Hq. destruct Hq as [Hc' Hr'].
  rewrite Hc, Hc', (IH Hr Hr'). reflexivity.
Qed.

Lemma first_is_weaken (p q : ascii -> bool) (P : ascii -> bool) (s : string) :
  (forall c, P c = true -> p c = true -> q c = true) ->
  all_chars P s = true -> first_is q s = false -> first_is p s = false.
Proof.
  intros Hpq. destruct s as [|c r]; simpl; [reflexivity|]. intros HP Hq.
  apply andb_prop in HP. destruct HP as [Hc _].
  destruct (p c) eqn:E; [|reflexivity]. rewrite (Hpq c Hc E) in Hq. discriminate.
Qed.

Lemma last_is_weaken (p q : ascii -> bool) (P : ascii -> bool) (s : string) :
  (forall c, P c = true -> p c = true -> q c = true) ->
  all_chars P s = true -> last_is q s = false -> last_is p s = false.
Proof.
  intros Hpq. induction s as [|c r IH]; simpl; [reflexivity|].
  intros HP Hq. apply andb_prop in HP. destruct HP as [Hc Hr].
  destruct r as [|d r'].
  - destruct (p c) eqn:E; [|reflexivity]. rewrite (Hpq c Hc E) in Hq. discriminate.
  - exact (IH Hr Hq).
Qed.

Lemma upper_fixed (s : string) :
  all_chars camera_char s = true -> PyStr.upper s = s.
Proof.
  induction s as [|c r IH]; simpl; [reflexivity|]. intros Hp.
  apply andb_prop in Hp. destruct Hp as [Hc Hr].
  rewrite (camera_upper c Hc), (IH Hr). reflexivity.
Qed.

Lemma camera_sub_fixed (s : string) :
  all_chars camera_char s = true -> camera_sub s = s.
Proof.
  unfold camera_sub. induction s as [|c r IH]; simpl; [reflexivity|]. intros Hp.
  apply andb_prop in Hp. destruct Hp as [Hc Hr]. rewrite Hc, (IH Hr). reflexivity.
Qed.

Lemma all_chars_camera_sub (s : string) : all_chars camera_char (camera_sub s) = true.
Proof.
  unfold camera_sub. induction s as [|c r IH]; simpl; [reflexivity|].
  rewrite IH. destruct (camera_char c) eqn:E; [rewrite E|]; reflexivity.
Qed.

(** ** Runs of white space *)

Lemma collapse_ws_fixed (b : bool) (s : string) :
  single_blanks b s = true -> PyStr.collapse_ws_from b s = s.
Proof.
  revert b. induction s as [|c r IH]; intros b; simpl; [reflexivity|].
  destruct (PyStr.is_space c).
  - intros Hs. apply andb_prop in Hs. destruct Hs as [Hs Hr].
    apply andb_prop in Hs. destruct Hs as [Hb Hc].
    destruct b; [discriminate|]. apply Ascii.eqb_eq in Hc. subst c.
    rewrite (IH true Hr). reflexivity.
  - intros Hr. rewrite (IH false Hr). reflexivity.
Qed.

Lemma single_blanks_collapse_ws (b : bool) (s : string) :
  single_blanks b (PyStr.collapse_ws_from b s) = true.
Proof.
  revert b. induction s as [|c r IH]; intros b; simpl; [reflexivity|].
  destruct (PyStr.is_space c) eqn:E.
  - destruct b; [exact (IH true)|]. simpl. exact (IH true).
  - simpl. rewrite E. exact (IH false).
Qed.

Lemma all_chars_collapse_ws (b : bool) (s : string) :
  all_chars camera_char s = true ->
  all_chars camera_char (PyStr.collapse_ws_from b s) = true.
Proof.
  revert b. induction s as [|c r IH]; intros b; simpl; [reflexivity|]. intros Hp.
  apply andb_prop in Hp. destruct Hp as [Hc Hr].
  destruct (PyStr.is_space c); [destruct b|]; simpl.
  - exact (IH true Hr).
  - exact (IH true Hr).
  - rewrite Hc. exact (IH false Hr).
Qed.

Lemma single_blanks_any (b : bool) (s : string) :
  single_blanks b s = true -> single_blanks false s = true.
Proof.
  destruct s as [|c r]; simpl; [reflexivity|].
  destruct (PyStr.is_space c); [|auto]. destruct b; [discriminate | auto].
Qed.

Lemma single_blanks_lstrip (b : bool) (s : string) :
  single_blanks b s = true -> single_blanks false (PyStr.lstrip_by PyStr.is_space s) = true.
Proof.
  revert b. induction s as [|c r IH]; intros b; simpl; [reflexivity|].
  destruct (PyStr.is_space c) eqn:E.
  - intros Hs. apply andb_prop in Hs. destruct Hs as [_ Hr]. exact (IH true Hr).
  - intros Hr. simpl. rewrite E. exact Hr.
Qed.

Lemma single_blanks_rstrip (b : bool) (s : string) :
  single_blanks b s = true -> single_blanks b (PyStr.rstrip_by PyStr.is_space s) = true.
Proof.
  revert b. induction s as [|c r IH]; intros b; simpl; [reflexivity|].
  destruct (PyStr.is_space c) eqn:E; simpl.
  - intros Hs. apply andb_prop in Hs. destruct Hs as [Hs Hr].
    destruct (PyStr.is_empty (PyStr.rstrip_by PyStr.is_space r)); simpl; [reflexivity|].
    rewrite E, Hs. exact (IH true Hr).
  - intros Hr. rewrite E. exact (IH false Hr).
Qed.

Lemma single_blanks_prefix_n (b : bool) (n : nat) (s : string) :
  single_blanks b s = true -> single_blanks b (PyStr.prefix_n n s) = true.
Proof.
  revert b s. induction n as [|n IH]; intros b [|c r]; simpl; try reflexivity.
  destruct (PyStr.is_space c).
  - intros Hs. apply andb_prop in Hs. destruct Hs as [Hs Hr].
    rewrite Hs. exact (IH true r Hr).
  - exact (IH false r).
Qed.

Lemma last_is_rstrip_by (p : ascii -> bool) (s : string) :
  last_is p (PyStr.rstrip_by p s) = false.
Proof.
  induction s as [|c r IH]; simpl; [reflexivity|].
  destruct (p c) eqn:Ec; simpl.
  - destruct (PyStr.rstrip_by p r) eqn:Er; simpl; [reflexivity | exact IH].
  - destruct (PyStr.rstrip_by p r) eqn:Er; simpl; [exact Ec | exact IH].
Qed.

Lemma last_is_strip_by (p : ascii -> bool) (s : string) :
  last_is p (PyStr.strip_by p s) = false.
Proof. apply last_is_rstrip_by. Qed.

Lemma length_lstrip_by (p : ascii -> bool) (s : string) :
  (String.length (PyStr.lstrip_by p s) <= String.length s)%nat.
Proof.
  induction s as [|c r IH]; simpl; [apply le_n|].
  destruct (p c); simpl; [apply le_S, IH | apply le_n].
Qed.

Lemma length_rstrip_by (p : ascii -> bool) (s : string) :
  (String.length (PyStr.rstrip_by p s) <= String.length s)%nat.
Proof.
  induction s as [|c r IH]; simpl; [apply le_n|].
  destruct (p c && PyStr.is_empty (PyStr.rstrip_by p r))%bool; simpl;
    [apply Nat.le_0_l | apply le_n_S, IH].
Qed.

Lemma length_strip_by (p : ascii -> bool) (s : string) :
  (String.length (PyStr.strip_by p s) <= String.length s)%nat.
Proof.
  unfold PyStr.strip_by.
  eapply Nat.le_trans; [apply length_rstrip_by | apply length_lstrip_by].
Qed.

Lemma strip_by_idempotent (p : ascii -> bool) (s : string) :
  PyStr.strip_by p (PyStr.strip_by p s) = PyStr.strip_by p s.
Proof. apply strip_by_fixed; [apply first_is_strip_by | apply last_is_strip_by]. Qed.

(** [sanitize_label] sees its argument through [strip] only. *)
Lemma sanitize_label_strip (v : Variant) (x fs : string) (c : bool) :
  sanitize_label v (PyStr.strip x) fs c = sanitize_label v x fs c.
Proof.
  unfold sanitize_label, PyStr.strip. rewrite strip_by_idempotent. reflexivity.
Qed.

Lemma last_is_differs (p : ascii -> bool) (a b : string) :
  last_is p a = true -> last_is p b = false -> a <> b.
Proof. intros Ha Hb E. subst. rewrite Ha in Hb. discriminate. Qed.

(** ** The camera profile *)

Lemma camera_is_space_blank (c : ascii) :
  camera_char c = true -> PyStr.is_space c = true -> blank c = true.
Proof. intros Hc Hs. rewrite <- (camera_space_is_blank c Hc). exact Hs. Qed.

Lemma camera_blank_space (c : ascii) :
  camera_char c = true -> blank c = true -> PyStr.is_space c = true.
Proof. intros _. apply blank_is_space. Qed.

(** The label of the camera profile has the camera shape. *)
Lemma sanitize_label_camera_shape (v : Variant) (x fs : string) :
  camera_shape (sanitize_label v x fs true).
Proof.
  unfold sanitize_label.
  set (raw := match v with
              | English => _
              | Italian => _
              end).
  set (base := PyStr.strip (PyStr.collapse_ws (camera_sub (PyStr.upper raw)))).
  assert (Ha : all_chars camera_char base = true).
  { apply all_chars_strip_by, all_chars_collapse_ws, all_chars_camera_sub. }
  assert (Hs : single_blanks false base = true).
  { unfold base, PyStr.strip, PyStr.strip_by.
    apply single_blanks_rstrip. eapply single_blanks_lstrip.
    apply single_blanks_collapse_ws. }
  assert (Hf : first_is PyStr.is_space base = false) by apply first_is_strip_by.
  assert (Hcut : camera_shape (PyStr.prefix_n 11 base) \/ PyStr.prefix_n 11 base = "").
  { destruct (PyStr.prefix_n 11 base) eqn:E; [right; reflexivity|].
    left. rewrite <- E. repeat split.
    - apply all_chars_prefix_n, Ha.
    - apply single_blanks_prefix_n, Hs.
    - apply first_is_prefix_n, Hf.
    - apply prefix_n_length.
    - rewrite E. discriminate. }
  clearbody base. clear raw.
  destruct Hcut as [Hshape | ->].
  - destruct (PyStr.prefix_n 11 base); [destruct Hshape as (_ & _ & _ & _ & F); contradiction|].
    exact Hshape.
  - repeat split; try reflexivity; [repeat constructor | discriminate].
Qed.

(** A text of the camera shape that does not end in a blank is a fixed
    point of the camera profile. *)
Lemma sanitize_label_camera_fixed (v : Variant) (y fs : string) :
  camera_shape y -> last_is blank y = false -> sanitize_label v y fs true = y.
Proof.
  intros (Ha & Hs & Hf & Hn & Hne) Hl.
  assert (Hl' : last_is PyStr.is_space y = false).
  { exact (last_is_weaken _ _ _ y camera_is_space_blank Ha Hl). }
  assert (Hstrip : PyStr.strip y = y) by (apply strip_by_fixed; assumption).
  assert (Hq1 : PyStr.remove PyStr.squote y = y).
  { apply filter_fixed. revert Ha. apply all_chars_weaken.
    intros c Hc. exact (proj1 (camera_no_quote c Hc)). }
  assert (Hq2 : PyStr.remove PyStr.dquote y = y).
  { apply filter_fixed. revert Ha. apply all_chars_weaken.
    intros c Hc. exact (proj2 (camera_no_quote c Hc)). }
  unfold sanitize_label. rewrite Hstrip.
  assert (Hraw : match v with
                 | English => PyStr.remove PyStr.dquote (PyStr.remove PyStr.squote y)
                 | Italian => y
                 end = y).
  { destruct v; [rewrite Hq1, Hq2|]; reflexivity. }
  rewrite Hraw. rewrite (upper_fixed y Ha), (camera_sub_fixed y Ha).
  unfold PyStr.collapse_ws. rewrite (collapse_ws_fixed false y Hs).
  rewrite Hstrip, (prefix_n_fixed 11 y Hn).
  unfold or_default. destruct y; [contradiction | reflexivity].
Qed.

(** In camera mode a second call of [sanitize_label] changes the label
    exactly when the first call left a blank at its end, which happens
    when the cut at 11 characters falls right behind a blank. *)
Lemma sanitize_label_camera_second_call (v : Variant) (x fs fs' : string) :
  let y := sanitize_label v x fs true in
  sanitize_label v y fs' true = y <-> last_is blank y = false.
Proof.
  intros y. pose proof (sanitize_label_camera_shape v x fs) as Hy. fold y in Hy.
  split.
  - intros Hfix. destruct (last_is blank y) eqn:Hl; [|reflexivity].
    exfalso.
    pose proof (sanitize_label_camera_shape v y fs') as (Ha & _).
    rewrite Hfix in Ha.
    assert (Hend : last_is PyStr.is_space y = true).
    { clear - Hl. induction y as [|c r IH]; simpl in *; [discriminate|].
      destruct r; [apply blank_is_space, Hl | apply IH, Hl]. }
    (* the second call strips that blank *)
    rewrite <- (sanitize_label_strip v y fs' true) in Hfix.
    destruct Hy as (Hya & Hys & Hyf & Hyn & Hyne).
    set (t := PyStr.strip y) in *.
    assert (Htl : last_is PyStr.is_space t = false) by apply last_is_strip_by.
    destruct t as [|c r] eqn:Et.
    + assert (Hd : sanitize_label v "" fs' true = "SD_CARD") by (destruct v; reflexivity).
      rewrite Hd in Hfix. rewrite <- Hfix in Hl. discriminate.
    + rewrite <- Et in *.
      assert (Hshape : camera_shape t).
      { unfold t. repeat split.
        - apply all_chars_strip_by, Hya.
        - unfold PyStr.strip, PyStr.strip_by. apply single_blanks_rstrip.
          eapply single_blanks_lstrip, Hys.
        - apply first_is_strip_by.
        - eapply Nat.le_trans; [apply length_strip_by | exact Hyn].
        - fold t. rewrite Et. discriminate. }
      assert (Htb : last_is blank t = false).
      { destruct Hshape as (Hta & _).
        exact (last_is_weaken _ _ _ t camera_blank_space Hta Htl). }
      rewrite (sanitize_label_camera_fixed v t fs' Hshape Htb) in Hfix.
      rewrite <- Hfix in Hl. rewrite Hl in Htb. discriminate.
  - apply sanitize_label_camera_fixed, Hy.
Qed.

(** ** The general profile *)

Lemma length_filter (p : ascii -> bool) (s : string) :
  (String.length (PyStr.filter p s) <= String.length s)%nat.
Proof.
  induction s as [|c r IH]; simpl; [apply le_n|].
  destruct (p c); simpl; [apply le_n_S, IH | apply le_S, IH].
Qed.

Lemma label_char_general (v : Variant) (c : ascii) :
  label_char v c = true -> general_char c = true.
Proof. unfold label_char. intros Hc. apply andb_prop in Hc. exact (proj1 Hc). Qed.

Lemma label_is_space_dot_or_blank (v : Variant) (c : ascii) :
  label_char v c = true -> PyStr.is_space c = true -> dot_or_blank c = true.
Proof.
  intros Hc Hs. apply blank_is_dot_or_blank.
  rewrite <- (general_space_is_blank c (label_char_general v c Hc)). exact Hs.
Qed.

Lemma raw_label_length (v : Variant) (x : string) :
  (String.length (raw_label v x) <= String.length x)%nat.
Proof.
  unfold raw_label, PyStr.remove, PyStr.strip. destruct v.
  - eapply Nat.le_trans; [apply length_filter|].
    eapply Nat.le_trans; [apply length_filter | apply length_strip_by].
  - apply length_strip_by.
Qed.

Lemma all_chars_label_char (v : Variant) (x : string) :
  all_chars (label_char v) (PyStr.filter general_char (raw_label v x)) = true.
Proof.
  destruct v; unfold label_char, raw_label.
  - apply all_chars_and; [apply all_chars_filter|].
    apply all_chars_filter_keeps. unfold PyStr.remove at 1.
    apply all_chars_filter_keeps. unfold PyStr.remove. apply all_chars_filter.
  - apply all_chars_and; [apply all_chars_filter|].
    induction (PyStr.filter general_char (PyStr.strip x)) as [|c r IH];
      simpl; [reflexivity | exact IH].
Qed.

(** The label of the general profile has the general shape. *)
Lemma sanitize_label_general_shape (v : Variant) (x fs : string) :
  general_shape v (sanitize_label v x fs false).
Proof.
  unfold sanitize_label. fold (raw_label v x).
  set (base := PyStr.strip_chars ". " (PyStr.filter general_char (raw_label v x))).
  assert (Ha : all_chars (label_char v) base = true).
  { apply all_chars_strip_by, all_chars_label_char. }
  assert (Hf : first_is dot_or_blank base = false).
  { exact (first_is_strip_by dot_or_blank _). }
  assert (Hcut : general_shape v (PyStr.prefix_n 32 base) \/ PyStr.prefix_n 32 base = "").
  { destruct (PyStr.prefix_n 32 base) eqn:E; [right; reflexivity|].
    left. rewrite <- E. repeat split.
    - apply all_chars_prefix_n, Ha.
    - apply first_is_prefix_n, Hf.
    - apply prefix_n_length.
    - rewrite E. discriminate. }
  clearbody base.
  destruct Hcut as [Hshape | ->].
  - destruct (PyStr.prefix_n 32 base);
      [destruct Hshape as (_ & _ & _ & F); contradiction|].
    exact Hshape.
  - destruct v; repeat split; try reflexivity; try discriminate; repeat constructor.
Qed.

(** A text of the general shape that ends neither in a dot nor in a blank
    is a fixed point of the general profile. *)
Lemma sanitize_label_general_fixed (v : Variant) (y fs : string) :
  general_shape v y -> last_is dot_or_blank y = false ->
  sanitize_label v y fs false = y.
Proof.
  intros (Ha & Hf & Hn & Hne) Hl.
  assert (Hf' : first_is PyStr.is_space y = false).
  { exact (first_is_weaken _ _ _ y (label_is_space_dot_or_blank v) Ha Hf). }
  assert (Hl' : last_is PyStr.is_space y = false).
  { exact (last_is_weaken _ _ _ y (label_is_space_dot_or_blank v) Ha Hl). }
  assert (Hstrip : PyStr.strip y = y) by (apply strip_by_fixed; assumption).
  assert (Hg : all_chars general_char y = true).
  { revert Ha. apply all_chars_weaken. apply label_char_general. }
  assert (Hraw : raw_label v y = y).
  { unfold raw_label. rewrite Hstrip. destruct v; [|reflexivity].
    assert (Hq1 : PyStr.remove PyStr.squote y = y).
    { apply filter_fixed. revert Ha. apply all_chars_weaken.
      intros c Hc. unfold label_char in Hc. apply andb_prop in Hc. exact (proj2 Hc). }
    rewrite Hq1. apply filter_fixed. revert Hg. apply all_chars_weaken.
    apply general_no_dquote. }
  unfold sanitize_label. fold (raw_label v y). rewrite Hraw.
  rewrite (filter_fixed general_char y Hg).
  assert (Hsc : PyStr.strip_chars ". " y = y).
  { exact (strip_by_fixed dot_or_blank y Hf Hl). }
  rewrite Hsc, (prefix_n_fixed 32 y Hn).
  unfold or_default. destruct y; [contradiction | reflexivity].
Qed.

(** On a text of at most 32 characters nothing is cut, and the label ends
    neither in a dot nor in a blank. *)
Lemma sanitize_label_general_uncut (v : Variant) (z fs : string) :
  (String.length z <= 32)%nat ->
  last_is dot_or_blank (sanitize_label v z fs false) = false.
Proof.
  intros Hn. unfold sanitize_label. fold (raw_label v z).
  set (u := PyStr.strip_chars ". " (PyStr.filter general_char (raw_label v z))).
  assert (Hu : (String.length u <= 32)%nat).
  { unfold u, PyStr.strip_chars.
    eapply Nat.le_trans; [apply length_strip_by|].
    eapply Nat.le_trans; [apply length_filter|].
    eapply Nat.le_trans; [apply raw_label_length | exact Hn]. }
  rewrite (prefix_n_fixed 32 u Hu).
  assert (Hl : last_is dot_or_blank u = false) by exact (last_is_strip_by dot_or_blank _).
  clearbody u. unfold or_default. destruct u; [reflexivity | exact Hl].
Qed.

(** In general mode a second call of [sanitize_label] changes the label
    exactly when the first call left a dot or a blank at its end, which
    happens when the cut at 32 characters falls right behind one. *)
Lemma sanitize_label_general_second_call (v : Variant) (x fs fs' : string) :
  let y := sanitize_label v x fs false in
  sanitize_label v y fs' false = y <-> last_is dot_or_blank y = false.
Proof.
  intros y. pose proof (sanitize_label_general_shape v x fs) as Hy. fold y in Hy.
  split.
  - intros Hfix. rewrite <- Hfix. apply sanitize_label_general_uncut.
    destruct Hy as (_ & _ & Hn & _). exact Hn.
  - apply sanitize_label_general_fixed, Hy.
Qed.

End LabelFacts.

(** * A label that ends in a blank cannot be verified *)

Section VerifyFacts.

Context {H : Host}.

Lemma last_is_not_empty (p : ascii -> bool) (s : string) :
  last_is p s = true -> s <> "".
Proof. destruct s; [discriminate | discriminate]. Qed.

Lemma last_is_split_once (p : ascii -> bool) (sep : ascii) (s a b : string) :
  PyStr.split_once sep s = Some (a, b) -> last_is p b = true -> last_is p s = true.
Proof.
  revert a. induction s as [|c r IH]; intros a; simpl; [discriminate|].
  destruct (Ascii.eqb c sep).
  - intros E Hb. inversion E; subst. destruct b; [discriminate | exact Hb].
  - destruct (PyStr.split_once sep r) as [[a' b']|] eqn:Er; [|discriminate].
    intros E Hb. inversion E; subst.
    pose proof (IH a' eq_refl Hb) as Hr. destruct r; [discriminate | exact Hr].
Qed.

(** [verify_volume] strips what Get-Volume printed before it compares, so
    it never answers [True] for a label that ends in white space. *)
Lemma verify_volume_rejects_trailing_blank (dl fs label : string) (dry_run : bool)
    (st st' : St H) :
  last_is PyStr.is_space label = true ->
  verify_volume H dl fs label dry_run st <> (Ok true, st').
Proof.
  intros Hl. unfold verify_volume. destruct (PyStr.is_empty dl); [discriminate|].
  intros E.
  destruct (bind_inv _ _ _ _ _ E) as [(p & s1 & _ & E1) | (e & _ & Habs)];
    [|discriminate].
  destruct (PyStr.is_empty (PyStr.strip (stdout p))); [discriminate|].
  destruct (PyStr.split_once "|" (PyStr.strip (stdout p))) as [[a b]|] eqn:Es;
    [|discriminate].
  inversion E1 as [[Hok Hst]]. apply andb_prop in Hok. destruct Hok as [_ Hb].
  apply String.eqb_eq in Hb. subst b.
  pose proof (last_is_split_once PyStr.is_space _ _ _ _ Es Hl) as Habs.
  unfold PyStr.strip in Habs. rewrite LabelFacts.last_is_strip_by in Habs.
  discriminate.
Qed.

End VerifyFacts.

(** The label of C8 in a run: the card is formatted, the volume reports
    the very label it was given, and the run still ends with status ERROR
    because verification compares it with the stripped output. *)
Lemma blank_ended_label_fails_verification :
  exists r,
    fst (Scripted.run English Scripted.cut_label (camera_request "ABCDEFGHIJ KL" false))
      = Ok r
    /\ r_label r = "ABCDEFGHIJ "
    /\ r_steps r = all_steps
    /\ r_verify r = Some "FAILED"
    /\ r_status r = Some "ERROR"
    /\ r_error r = Some "Post-format verification failed.".
Proof. eexists. split; [reflexivity|]. repeat split. Qed.

(** * The end-to-end scenario *)

Section Scenario.

Context {H : Host}.
Variable v : Variant.

(** A label that does not end in white space survives the [strip] of
    [verify_volume] behind the file system and the bar. *)
Lemma strip_fs_bar_label (label : string) :
  last_is PyStr.is_space label = false ->
  PyStr.strip ("FAT32|" ++ label) = "FAT32|" ++ label.
Proof.
  intros Hl. apply LabelFacts.strip_by_fixed; [reflexivity|].
  simpl. destruct label; [reflexivity | exact Hl].
Qed.

(** C6.  The end-to-end scenario on the command-line pipeline, for every
    raw label and on every namespace, with the attribute [skip_verify] or
    without it.  The request resolves to FAT32, to the default cluster and
    to the sanitised label.  Against an executor that lists disk 3 with
    32 000 000 000 bytes, lets every changing script exit with 0, prints E
    for the new partition and FAT32|<label> for the volume, the run
    returns a dictionary with the three steps dismount_volumes,
    clear_and_init and create_partition_and_format and the drive letter E.
    Verification is no step: its outcome is the entry [verify].  With
    [skip_verify] false and a label that does not end in white space the
    status is OK and [verify] is OK; with [skip_verify] true the status is
    OK and there is no entry [verify]. *)
Theorem end_to_end_camera_card (raw_label : string) (gpt : bool)
    (skip_verify : option bool) (st : St H)
    (disks : list DiskRecord) (st1 : St H) (target : DiskRecord) :
  let label := sanitize_label v raw_label "FAT32" true in
  let args := Scripted.with_skip_verify skip_verify (camera_request raw_label gpt) in
  list_disks H v false st = (Ok disks, st1) ->
  List.find (fun d => number d =? 3) disks = Some target ->
  size target = 32000000000 ->
  is_system target = false -> is_boot target = false -> is_readonly target = false ->
  (forall w c, is_mutating c = true -> returncode (fst (spawn H w c)) = 0) ->
  (forall w fs l au q,
      PyStr.strip (stdout (fst (spawn H w (NewPartitionAndFormat 3 fs l au q)))) = "E") ->
  (forall w, returncode (fst (spawn H w (GetVolume "E"))) = 0
             /\ PyStr.strip (stdout (fst (spawn H w (GetVolume "E"))))
                = PyStr.strip ("FAT32|" ++ label)) ->
  exists r st',
    run_format_pipeline H v args st = (Ok r, st')
    /\ r_fs r = "FAT32" /\ r_label r = label /\ r_cluster r = None
    /\ r_steps r = ["dismount_volumes"; "clear_and_init"; "create_partition_and_format"]
    /\ r_drive_letter r = Some "E"
    /\ (skip_verify = Some false -> last_is PyStr.is_space label = false ->
          r_status r = Some "OK" /\ r_error r = None /\ r_verify r = Some "OK")
    /\ (skip_verify = Some true ->
          r_status r = Some "OK" /\ r_error r = None /\ r_verify r = None).
Proof.
  intros label args Hl Hf Hsize Hsys Hboot Hro Hmut Hletter Hvol.
  assert (Hn : number target = 3).
  { apply find_some in Hf. destruct Hf as [_ Hf]. apply Z.eqb_eq in Hf. exact Hf. }
  assert (Hres : resolved H v args st target "FAT32" label
                   (if gpt then "GPT" else "MBR") None st1).
  { exists disks, st1. repeat split; try assumption.
    - unfold ensure_safe_target. rewrite Hsys, Hboot, Hro, Hsize. destruct v; reflexivity.
    - unfold resolve_fs. simpl. rewrite Hsize. reflexivity. }
  rewrite (run_format_pipeline_resolved v _ _ _ _ _ _ _ _ Hres).
  pose proof (dismount_volumes_exit_0 3 st1 (Hmut _ (DismountVolumes 3) eq_refl)) as Ha.
  set (sa := mkSt _ _) in Ha.
  pose proof (clear_and_init_metadata_exit_0 3 (if gpt then "GPT" else "MBR") sa
                (Hmut _ (ClearAndInitialize 3 _) eq_refl)) as Hb.
  set (sb := mkSt _ _) in Hb.
  pose proof (create_partition_and_format_letter_E 3 "FAT32" label None true sb
                (Hmut _ (NewPartitionAndFormat 3 _ _ _ _) eq_refl)
                (Hletter _ _ _ _ _)) as Hc.
  set (sc := mkSt _ _) in Hc.
  unfold guarded.
  destruct skip_verify as [[|]|].
  - (* verification skipped *)
    rewrite (try_body_skipped v args target "FAT32" label
               (if gpt then "GPT" else "MBR") None _ st1 sa sb sc "E");
      try reflexivity; rewrite ?Hn; try assumption.
    eexists. eexists. split; [reflexivity|]. simpl.
    repeat split; intros; discriminate.
  - (* verification on *)
    destruct (verify_volume H "E" "FAT32" label false sc) as [o sd] eqn:Hv.
    assert (Hgood : last_is PyStr.is_space label = false -> o = Ok true).
    { intros Hlast. destruct (Hvol (world sc)) as [Hrc Hout].
      rewrite (strip_fs_bar_label label Hlast) in Hout.
      pose proof (verify_volume_match "E" "FAT32" label "FAT32" sc eq_refl Hrc) as Hm.
      rewrite Hout in Hm. specialize (Hm eq_refl eq_refl).
      rewrite Hm in Hv. inversion Hv. reflexivity. }
    rewrite (try_body_verify_outcome v args target "FAT32" label
               (if gpt then "GPT" else "MBR") None _ st1 sa sb sc sd "E" o);
      try reflexivity; rewrite ?Hn; try assumption.
    destruct o as [[|]|e]; (eexists; eexists; split; [reflexivity|]); simpl;
      repeat split; intros; try discriminate;
      match goal with
      | Hlast : last_is _ _ = false |- _ => specialize (Hgood Hlast); discriminate
      end.
  - (* no attribute skip_verify *)
    rewrite (try_body_no_attribute v args target "FAT32" label
               (if gpt then "GPT" else "MBR") None _ st1 sa sb sc "E");
      try reflexivity; rewrite ?Hn; try assumption.
    eexists. eexists. split; [reflexivity|]. simpl.
    repeat split; intros; discriminate.
Qed.

End Scenario.

Lemma end_to_end_camera_card_witness :
  exists r st',
    Scripted.run English Scripted.card32 Scripted.request = (Ok r, st')
    /\ r_fs r = "FAT32" /\ r_label r = "GOPRO" /\ r_cluster r = None
    /\ r_steps r = ["dismount_volumes"; "clear_and_init"; "create_partition_and_format"]
    /\ r_drive_letter r = Some "E"
    /\ r_status r = Some "OK" /\ r_error r = None /\ r_verify r = Some "OK".
Proof.
  destruct (end_to_end_camera_card (H := Scripted.host Scripted.card32) English
              "GoPro" false (Some false) (Scripted.start Scripted.card32)
              [mkDisk 3 32000000000 false false false ["E"]]
              (mkSt (H := Scripted.host Scripted.card32) ["E"]
                 [Spawned GetDisk; Spawned (GetPartition 3); Spawned (GetVolumeLetters 3)])
              (mkDisk 3 32000000000 false false false ["E"]))
    as (r & st' & E & F & L & C & S & D & V & _); try reflexivity.
  - intros w c Hc. destruct c; try discriminate; reflexivity.
  - intros w. split; reflexivity.
  - destruct (V eq_refl eq_refl) as (T & R & K).
    exists r, st'. repeat split; assumption.
Defined.

(** * Further properties of the policy functions *)

(** X1.  For a fixed file system [suggest_cluster] never decreases when
    the size grows, as long as it returns. *)
Theorem suggest_cluster_monotone (fs : string) (a b x y : Z) :
  a <= b ->
  suggest_cluster fs a = Ok x -> suggest_cluster fs b = Ok y ->
  x <= y.
Proof.
  intros Hab. unfold suggest_cluster. change GiB with 1073741824.
  destruct (gb_overflows a); [discriminate|].
  destruct (gb_overflows b); [discriminate|].
  destruct (String.eqb (PyStr.upper fs) "FAT32");
    repeat match goal with
           | |- context [?u <=? ?w] => destruct (Z.leb_spec u w)
           end; intros Ea Eb; inversion Ea; inversion Eb; subst; lia.
Qed.

Lemma suggest_cluster_monotone_witness :
  8 * 1024 ^ 3 <= 64 * 1024 ^ 3
  /\ suggest_cluster "fat32" (8 * 1024 ^ 3) = Ok 8192
  /\ suggest_cluster "fat32" (64 * 1024 ^ 3) = Ok 32768
  /\ 8192 <= 32768.
Proof.
  split; [vm_compute; discriminate|].
  split; [reflexivity|]. split; [reflexivity|].
  apply (suggest_cluster_monotone "fat32" (8 * 1024 ^ 3) (64 * 1024 ^ 3) 8192 32768);
    [vm_compute; discriminate | reflexivity | reflexivity].
Defined.

(** X2.  With file system and cluster both on AUTO the two suggestions
    compose into one table over the sizes they return on: FAT32 with 4096,
    8192, 16384 or 32768 bytes up to 32 GiB, exFAT with 131072, 262144 or
    524288 bytes above; the FAT32 branch of 32768 bytes ends at 32 GiB and
    the exFAT branch of 131072 bytes starts there. *)
Theorem auto_fs_and_cluster_table (s : Z) :
  Z.abs s < float_limit ->
  exists fs c,
    suggest_fs s = Ok fs /\ suggest_cluster fs s = Ok c
    /\ (s <= 4 * 1024 ^ 3 -> fs = "FAT32" /\ c = 4096)
    /\ (4 * 1024 ^ 3 < s <= 8 * 1024 ^ 3 -> fs = "FAT32" /\ c = 8192)
    /\ (8 * 1024 ^ 3 < s <= 16 * 1024 ^ 3 -> fs = "FAT32" /\ c = 16384)
    /\ (16 * 1024 ^ 3 < s <= 32 * 1024 ^ 3 -> fs = "FAT32" /\ c = 32768)
    /\ (32 * 1024 ^ 3 < s <= 64 * 1024 ^ 3 -> fs = "exFAT" /\ c = 131072)
    /\ (64 * 1024 ^ 3 < s <= 256 * 1024 ^ 3 -> fs = "exFAT" /\ c = 262144)
    /\ (256 * 1024 ^ 3 < s -> fs = "exFAT" /\ c = 524288).
Proof.
  intros Hs. unfold suggest_fs, suggest_cluster, fs_by_size.
  rewrite (gb_overflows_false _ Hs).
  change GiB with 1073741824. change (1024 ^ 3) with 1073741824.
  destruct (Z.leb_spec s (32 * 1073741824)); simpl String.eqb; cbv iota;
    repeat match goal with
           | |- context [?x <=? ?y] => destruct (Z.leb_spec x y)
           end;
    (do 2 eexists; split; [reflexivity|]; split; [reflexivity|];
     repeat split; try reflexivity; lia).
Qed.

Lemma auto_fs_and_cluster_table_witness :
  exists fs c,
    suggest_fs 32000000000 = Ok fs /\ suggest_cluster fs 32000000000 = Ok c
    /\ (16 * 1024 ^ 3 < 32000000000 <= 32 * 1024 ^ 3 -> fs = "FAT32" /\ c = 32768).
Proof.
  destruct (auto_fs_and_cluster_table 32000000000) as (fs & c & F & C & _ & _ & _ & T & _);
    [vm_compute; reflexivity|].
  exists fs, c. split; [exact F|]. split; [exact C | exact T].
Defined.



(** The Italian front end has no such check: a negative number goes
    through to the format command. *)
Lemma select_cluster_italian_negative :
  select_cluster Italian
    (mkArgs 3 "X" "AUTO" true (ClusterInt (-4096)) false false "metadata" false 8 false
       true None)
    "FAT32" (mkDisk 3 32000000000 false false false []) = Ok (Some (-4096)).
Proof. reflexivity. Qed.

(** * Labels and the script that quotes them *)

Lemma all_chars_not_mem (p : ascii -> bool) (q : ascii) (s : string) :
  p q = false -> all_chars p s = true ->
  all_chars (fun c => negb (Ascii.eqb c q)) s = true.
Proof.
  intros Hq Hs. revert Hs. apply LabelFacts.all_chars_weaken.
  intros c Hc. destruct (Ascii.eqb_spec c q) as [->|]; [congruence | reflexivity].
Qed.

(** X8.  The label never holds the quote character its format script
    wraps it in, in either profile: no apostrophe in the English front
    end, no double quote in the Italian one.  The English label holds no
    double quote either. *)
Theorem sanitize_label_free_of_script_quote (v : Variant) (x fs : string) (c : bool) :
  all_chars (fun d => negb (Ascii.eqb d (script_quote v))) (sanitize_label v x fs c) = true
  /\ all_chars (fun d => negb (Ascii.eqb d PyStr.dquote)) (sanitize_label v x fs c) = true.
Proof.
  destruct c.
  - destruct (LabelFacts.sanitize_label_camera_shape v x fs) as (Ha & _).
    split; [destruct v|]; (eapply all_chars_not_mem; [|exact Ha]; reflexivity).
  - destruct (LabelFacts.sanitize_label_general_shape v x fs) as (Ha & _).
    assert (Hd : all_chars (fun d => negb (Ascii.eqb d PyStr.dquote))
                   (sanitize_label v x fs false) = true).
    { revert Ha. apply LabelFacts.all_chars_weaken. intros d Hd.
      apply LabelFacts.general_no_dquote, (LabelFacts.label_char_general v), Hd. }
    split; [|exact Hd]. destruct v; [|exact Hd].
    revert Ha. apply LabelFacts.all_chars_weaken. intros d Hl.
    unfold label_char in Hl. apply andb_prop in Hl. exact (proj2 Hl).
Qed.

(** X9.  A text made of white space only, the empty text included, gets
    the default label SD_CARD in both profiles and both front ends. *)
Theorem sanitize_label_blank_input (v : Variant) (x fs : string) (c : bool) :
  PyStr.strip x = "" -> sanitize_label v x fs c = "SD_CARD".
Proof.
  intros Hx. unfold sanitize_label. rewrite Hx. destruct v, c; reflexivity.
Qed.

Lemma sanitize_label_blank_input_witness :
  PyStr.strip "   " = "" /\ sanitize_label English "   " "FAT32" true = "SD_CARD".
Proof.
  split; [reflexivity|].
  apply (sanitize_label_blank_input English "   " "FAT32" true). reflexivity.
Defined.

Lemma verify_volume_rejects_trailing_blank_witness :
  last_is PyStr.is_space "ABCDEFGHIJ " = true
  /\ verify_volume (Scripted.host Scripted.cut_label) "E" "FAT32" "ABCDEFGHIJ " false
       (Scripted.start Scripted.cut_label)
     <> (Ok true, Scripted.start Scripted.cut_label).
Proof.
  split; [reflexivity|].
  apply (verify_volume_rejects_trailing_blank (H := Scripted.host Scripted.cut_label)
           "E" "FAT32" "ABCDEFGHIJ " false). reflexivity.
Defined.

(** * What a run records and what it leaves alone *)

Section RunFacts.

Context {H : Host}.
Variable v : Variant.

Lemma call_inv {A} (m : Run H A) (s : PipelineResult * St H) o s' :
  call H m s = (o, s') -> fst s' = fst s /\ m (snd s) = (o, snd s').
Proof.
  unfold call. destruct (m (snd s)) as [o1 st1]. intros E. inversion E; subst.
  split; reflexivity.
Qed.

Lemma update_inv (f : PipelineResult -> PipelineResult) (s : PipelineResult * St H) o s' :
  update H f s = (o, s') -> o = Ok tt /\ s' = (f (fst s), snd s).
Proof. unfold update. intros E. inversion E; subst. split; reflexivity. Qed.

(** The guarded block always hands a dictionary back. *)
Lemma guarded_returns (body : Try H unit) (r0 : PipelineResult) (st : St H) :
  exists r st', guarded H body r0 st = (Ok r, st').
Proof.
  unfold guarded. destruct (body (r0, st)) as [[u|e] [r st']]; eauto.
Qed.

Lemma initial_segment_nil {A} (ys : list A) : initial_segment [] ys.
Proof. exists ys. reflexivity. Qed.

Lemma initial_segment_refl {A} (ys : list A) : initial_segment ys ys.
Proof. exists []. rewrite app_nil_r. reflexivity. Qed.

(** How far the [try] block got: the steps it appended are an initial
    segment of the three names, and all three when it ran to its end. *)
Lemma try_body_progress (args : Args) (target : DiskRecord) (fs label style : string)
    (cluster : option Z) (r0 : PipelineResult) (st : St H) o (r' : PipelineResult)
    (st' : St H) :
  try_body H v args target fs label style cluster (r0, st) = (o, (r', st')) ->
  exists done,
    r_steps r' = (r_steps r0 ++ done)%list
    /\ initial_segment done all_steps
    /\ (forall u, o = Ok u ->
          done = all_steps
          /\ (exists dl, r_drive_letter r' = Some dl)
          /\ exists b, arg_skip_verify args = Some b
                       /\ (b = false -> r_verify r' = Some "OK")).
Proof.
  unfold try_body. intros E.
  destruct (bind_inv _ _ _ _ _ E) as [([] & [r1 s1] & E1 & E2) | (e & E1 & ->)]; clear E.
  2:{ apply call_inv in E1. destruct E1 as [Hr _]. simpl in Hr. subst r'.
      exists []. rewrite app_nil_r. split; [reflexivity|].
      split; [apply initial_segment_nil | discriminate]. }
  apply call_inv in E1. destruct E1 as [Hr _]. simpl in Hr. subst r1.
  rewrite update_then in E2.
  destruct (bind_inv _ _ _ _ _ E2) as [([] & [r2 s2] & E3 & E4) | (e & E3 & ->)]; clear E2.
  2:{ apply call_inv in E3. destruct E3 as [Hr _]. simpl in Hr. subst r'.
      exists ["dismount_volumes"]. split; [reflexivity|].
      split; [eexists; reflexivity | discriminate]. }
  apply call_inv in E3. destruct E3 as [Hr _]. simpl in Hr. subst r2.
  rewrite update_then in E4.
  destruct (bind_inv _ _ _ _ _ E4) as [(dl & [r3 s3] & E5 & E6) | (e & E5 & ->)]; clear E4.
  2:{ apply call_inv in E5. destruct E5 as [Hr _]. simpl in Hr. subst r'.
      exists ["dismount_volumes"; "clear_and_init"]. split.
      - simpl. rewrite <- app_assoc. reflexivity.
      - split; [eexists; reflexivity | discriminate]. }
  apply call_inv in E5. destruct E5 as [Hr _]. simpl in Hr. subst r3.
  rewrite !update_then in E6.
  assert (Hsteps : forall x : PipelineResult,
             r_steps x = (r_steps r0 ++ all_steps)%list ->
             exists done, r_steps x = (r_steps r0 ++ done)%list
                          /\ initial_segment done all_steps).
  { intros x Hx. exists all_steps. split; [exact Hx | apply initial_segment_refl]. }
  set (r4 := add_step "create_partition_and_format" _) in E6.
  assert (H4 : r_steps r4 = (r_steps r0 ++ all_steps)%list).
  { unfold r4, all_steps. simpl. rewrite <- !app_assoc. reflexivity. }
  assert (D4 : r_drive_letter r4 = Some dl) by reflexivity.
  clearbody r4.
  destruct (arg_skip_verify args) as [b|] eqn:Hskip.
  2:{ unfold bind at 1, raise at 1 in E6. inversion E6; subst.
      exists all_steps. split; [exact H4|].
      split; [apply initial_segment_refl | discriminate]. }
  unfold bind at 1, ret at 1 in E6.
  destruct (bind_inv _ _ _ _ _ E6) as [([] & [r5 s5] & E7 & E8) | (e & E7 & ->)]; clear E6.
  2:{ exists all_steps.
      assert (Hr : r_steps r' = r_steps r4).
      { destruct b; [discriminate|].
        destruct (bind_inv _ _ _ _ _ E7) as [(ok & [r6 s6] & E9 & E10) | (e' & E9 & _)].
        - apply call_inv in E9. destruct E9 as [Hr _]. simpl in Hr. subst r6.
          rewrite update_then in E10. destruct ok; inversion E10; reflexivity.
        - apply call_inv in E9. destruct E9 as [Hr _]. simpl in Hr. subst r'.
          reflexivity. }
      rewrite Hr. split; [exact H4|]. split; [apply initial_segment_refl | discriminate]. }
  assert (H5 : r_steps r5 = r_steps r4 /\ r_drive_letter r5 = r_drive_letter r4
               /\ (b = false -> r_verify r5 = Some "OK")).
  { destruct b.
    - inversion E7; subst. repeat split. discriminate.
    - destruct (bind_inv _ _ _ _ _ E7) as [(ok & [r6 s6] & E9 & E10) | (e' & _ & Habs)];
        [|discriminate].
      apply call_inv in E9. destruct E9 as [Hr _]. simpl in Hr. subst r6.
      rewrite update_then in E10. destruct ok; inversion E10; subst.
      repeat split. }
  destruct H5 as (S5 & D5 & V5).
  assert (H' : r_steps r' = r_steps r5 /\ r_drive_letter r' = r_drive_letter r5
               /\ r_verify r' = r_verify r5).
  { destruct (arg_test_io args).
    - destruct (bind_inv _ _ _ _ _ E8) as [(res & [r6 s6] & E9 & E10) | (e' & E9 & _)].
      + apply call_inv in E9. destruct E9 as [Hr _]. simpl in Hr. subst r6.
        rewrite update_then in E10. destruct (fst res); inversion E10; subst.
        * repeat split.
        * repeat split.
      + apply call_inv in E9. destruct E9 as [Hr _]. simpl in Hr. subst r'.
        repeat split.
    - inversion E8; subst. repeat split. }
  destruct H' as (S' & D' & V').
  exists all_steps. rewrite S', S5. split; [exact H4|].
  split; [apply initial_segment_refl|]. intros u _.
  split; [reflexivity|]. split.
  - exists dl. rewrite D', D5. exact D4.
  - exists b. split; [reflexivity|]. intros Hb. rewrite V'. exact (V5 Hb).
Qed.


End RunFacts.


Section RunFacts2.

Context {H : Host}.
Variable v : Variant.

(** X11.  [parse_args] declares no option named skip_verify.  On a
    namespace without that attribute no run ends with status OK: whenever
    a dictionary comes back its status is ERROR. *)
Theorem no_skip_verify_no_success (args : Args) (st : St H) r st' :
  arg_skip_verify args = None ->
  run_format_pipeline H v args st = (Ok r, st') ->
  r_status r = Some "ERROR" /\ r_status r <> Some "OK".
Proof.
  intros Hnone E.
  destruct (run_format_pipeline_returns v _ _ _ _ E)
    as (target & fs & label & style & cluster & st2 & _ & G).
  unfold guarded in G.
  destruct (try_body H v args target fs label style cluster
              (initial_result args target fs label style cluster, st2))
    as [o [partial st3]] eqn:B.
  destruct (try_body_progress v _ _ _ _ _ _ _ _ _ _ _ B) as (done & _ & _ & Hok).
  destruct o as [[]|e]; inversion G; subst r st3; clear G; simpl.
  - destruct (Hok tt eq_refl) as (_ & _ & b & Hb & _). congruence.
  - split; [reflexivity | discriminate].
Qed.

(** X12.  A run that ends in an exception has changed nothing on the
    disk: all it has done is to query the catalogue and, at most, to
    prompt once. *)
Theorem raising_run_changes_nothing (args : Args) (st : St H) e st' :
  run_format_pipeline H v args st = (Raise e, st') ->
  exists evs, trace st' = (trace st ++ evs)%list /\ harmless evs.
Proof.
  unfold run_format_pipeline. intros E.
  destruct (bind_inv _ _ _ _ _ E) as [(disks & st1 & Hl & E1) | (e' & Hl & _)];
    [|exact (only_queries_list_disks v _ _ _ _ Hl)].
  destruct (only_queries_list_disks v _ _ _ _ Hl) as (ev1 & T1 & F1).
  destruct (find _ disks) as [target|]; [|inversion E1; subst; eauto].
  destruct (ensure_safe_target v target); [inversion E1; subst; eauto|].
  destruct (bind_inv _ _ _ _ _ E1) as [(c & s1 & Hc & E2) | (e' & Hc & _)];
    [|inversion Hc; subst; eauto].
  inversion Hc; subst s1.
  destruct (bind_inv _ _ _ _ _ E2) as [([] & st2 & Hk & E3) | (e' & Hk & _)].
  - match type of E3 with
    | guarded H ?body ?r0 ?s0 = _ =>
        destruct (guarded_returns body r0 s0) as (r & s & G)
    end.
    rewrite G in E3. discriminate.
  - destruct (only_queries_confirm v _ _ _ _ _ Hk) as (ev2 & T2 & F2).
    exists (ev1 ++ ev2)%list. split.
    + rewrite T2, T1, app_assoc. reflexivity.
    + apply harmless_app; assumption.
Qed.

End RunFacts2.

Lemma no_skip_verify_no_success_witness :
  exists r st',
    Scripted.run English Scripted.card32 (Scripted.with_skip_verify None Scripted.request)
      = (Ok r, st')
    /\ r_status r = Some "ERROR".
Proof.
  destruct (Scripted.run English Scripted.card32
              (Scripted.with_skip_verify None Scripted.request)) as [[r|e] st'] eqn:E;
    [|vm_compute in E; discriminate].
  exists r, st'. split; [reflexivity|].
  exact (proj1 (no_skip_verify_no_success (H := Scripted.host Scripted.card32) English
                  (Scripted.with_skip_verify None Scripted.request)
                  (Scripted.start Scripted.card32) r st' eq_refl E)).
Defined.

Lemma raising_run_changes_nothing_witness :
  exists e st' evs,
    Scripted.run English Scripted.mistyped (Scripted.with_yes false Scripted.request)
      = (Raise e, st')
    /\ trace st' = (trace (Scripted.start Scripted.mistyped) ++ evs)%list
    /\ harmless evs.
Proof.
  destruct (Scripted.run English Scripted.mistyped
              (Scripted.with_yes false Scripted.request)) as [[r|e] st'] eqn:E;
    [vm_compute in E; discriminate|].
  destruct (raising_run_changes_nothing (H := Scripted.host Scripted.mistyped) English
              (Scripted.with_yes false Scripted.request)
              (Scripted.start Scripted.mistyped) e st' E) as (evs & T & F).
  exists e, st', evs. split; [reflexivity|]. split; assumption.
Defined.

(** * Only the requested disk, and only a safe one *)

Section Containment.

Context {H : Host}.
Variable v : Variant.













End Containment.


(** * Edge behaviour of the steps *)

Section StepEdges.

Context {H : Host}.
Variable v : Variant.


(** X15.  When the partition script prints something that is white space
    only, [create_partition_and_format] raises [IndexError] although the
    script itself succeeded; when it prints nothing the drive letter is
    the empty text. *)
Theorem create_partition_and_format_blank_output (n : Z) (fs label : string)
    (cluster : option Z) (quick : bool) (st : St H) :
  let script := NewPartitionAndFormat n fs label (nonzero cluster) quick in
  let p := fst (spawn H (world st) script) in
  let st' := mkSt (snd (spawn H (world st) script)) (trace st ++ [Spawned script]) in
  returncode p = 0 ->
  PyStr.strip (stdout p) = "" ->
  create_partition_and_format H n fs label cluster quick false st =
    (if PyStr.is_empty (stdout p) then Ok ""
     else Raise (mkExn IndexError "list index out of range"), st').
Proof.
  intros script p st' Hrc Hout. unfold create_partition_and_format. fold script.
  rewrite (bind_ok _ _ _ _ _ (run_ps_exit_0 _ _ Hrc)). fold p.
  destruct (PyStr.is_empty (stdout p)); [reflexivity|].
  rewrite Hout. reflexivity.
Qed.

(** X16.  [verify_volume] answers [True] only outside a dry run, with a
    drive letter, when the script exits with 0 and what it printed,
    stripped, is a file system equal to the expected one up to case, a
    bar, and exactly the expected label. *)
Theorem verify_volume_true_only_if (dl fs label : string) (dry_run : bool)
    (st st' : St H) :
  verify_volume H dl fs label dry_run st = (Ok true, st') ->
  dry_run = false
  /\ dl <> ""
  /\ returncode (fst (spawn H (world st) (GetVolume dl))) = 0
  /\ exists out_fs,
       PyStr.split_once "|" (PyStr.strip (stdout (fst (spawn H (world st) (GetVolume dl)))))
         = Some (out_fs, label)
       /\ PyStr.upper out_fs = PyStr.upper fs.
Proof.
  unfold verify_volume. destruct dl as [|c r]; [discriminate|]. intros E.
  change (PyStr.is_empty (String c r)) with false in E. cbv iota in E.
  destruct dry_run.
  { rewrite (bind_ok _ _ _ _ _ (run_ps_dry _ st)) in E. discriminate. }
  destruct (Z.eq_dec (returncode (fst (spawn H (world st) (GetVolume (String c r))))) 0)
    as [Hrc|Hrc].
  2:{ rewrite (bind_raise _ _ _ _ _ (run_ps_exit_nonzero _ _ Hrc)) in E. discriminate. }
  rewrite (bind_ok _ _ _ _ _ (run_ps_exit_0 _ _ Hrc)) in E.
  destruct (PyStr.is_empty _); [discriminate|].
  destruct (PyStr.split_once _ _) as [[a b]|] eqn:Es; [|discriminate].
  inversion E as [[Hok Hst]]. apply andb_prop in Hok. destruct Hok as [Hf Hb].
  apply String.eqb_eq in Hf. apply String.eqb_eq in Hb. subst b.
  repeat split; try assumption; [discriminate|]. exists a. split; [reflexivity | exact Hf].
Qed.

(** X17.  [test_io] raises nothing.  In a dry run it reports success
    without touching the file system; the English front end reports
    failure without touching it when there is no drive letter; a reported
    success outside a dry run means the size read back was the number of
    MiB asked for. *)
Theorem test_io_outcomes (dl : string) (size_mb : Z) (dry_run : bool) (st : St H) :
  exists ok msg st',
    test_io H v dl size_mb dry_run st = (Ok (ok, msg), st')
    /\ (dry_run = true -> ok = true /\ msg = "dry-run" /\ st' = st)
    /\ (dry_run = false -> v = English -> dl = "" ->
          ok = false /\ msg = "No drive letter available" /\ st' = st)
    /\ (dry_run = false -> ok = true ->
          fst (write_test_file H (world st) dl size_mb)
            = FsWritten (Z.max 0 size_mb * (1024 * 1024))
          /\ trace st' = (trace st ++ [TestFile dl size_mb])%list).
Proof.
  unfold test_io. destruct dry_run.
  { exists true, "dry-run", st. repeat split; discriminate. }
  assert (Hio : forall d : string,
            let res := write_test_file H (world st) d size_mb in
            exists ok msg st',
              (let (found, w) := res in
               let st1 := mkSt w (trace st ++ [TestFile d size_mb]) in
               match found with
               | FsWritten sz =>
                   if sz =? Z.max 0 size_mb * (1024 * 1024)
                   then (Ok (true, "OK"), st1)
                   else (Ok (false, Msg.size_mismatch v sz
                                      (Z.max 0 size_mb * (1024 * 1024))), st1)
               | FsError msg => (Ok (false, msg), st1)
               end) = (Ok (ok, msg), st')
              /\ (ok = true ->
                    fst res = FsWritten (Z.max 0 size_mb * (1024 * 1024))
                    /\ trace st' = (trace st ++ [TestFile d size_mb])%list)).
  { intros d res. destruct res as [[sz|msg] w]; cbv beta iota zeta.
    - destruct (Z.eqb_spec sz (Z.max 0 size_mb * (1024 * 1024))) as [->|Hne];
        do 3 eexists; (split; [reflexivity|]); intros; try discriminate.
      split; reflexivity.
    - do 3 eexists. split; [reflexivity|]. discriminate. }
  destruct v.
  - destruct dl as [|c r].
    + exists false, Msg.no_letter, st. split; [reflexivity|].
      repeat split; discriminate.
    + destruct (Hio (String c r)) as (ok & msg & st' & E & Hok).
      exists ok, msg, st'. split; [exact E|].
      repeat split; try discriminate; intros; apply Hok; assumption.
  - destruct (Hio dl) as (ok & msg & st' & E & Hok).
    exists ok, msg, st'. split; [exact E|].
    repeat split; try discriminate; intros; apply Hok; assumption.
Qed.

(** X18.  When the Get-Disk query exits with 0 and prints nothing but
    white space, [list_disks] returns the empty list and asks nothing
    else: no output is not an error. *)
Theorem list_disks_no_output (st : St H) :
  returncode (fst (spawn H (world st) GetDisk)) = 0 ->
  PyStr.strip (stdout (fst (spawn H (world st) GetDisk))) = "" ->
  list_disks H v false st =
    (Ok [], mkSt (snd (spawn H (world st) GetDisk)) (trace st ++ [Spawned GetDisk])).
Proof.
  intros Hrc Hout.
  assert (Hj : ps_json H GetDisk false st =
               (Ok (JList []),
                mkSt (snd (spawn H (world st) GetDisk)) (trace st ++ [Spawned GetDisk]))).
  { unfold ps_json. rewrite (bind_ok _ _ _ _ _ (run_ps_exit_0 _ _ Hrc)).
    rewrite Hout. reflexivity. }
  unfold list_disks. rewrite (bind_ok _ _ _ _ _ Hj). reflexivity.
Qed.

End StepEdges.

Lemma create_partition_and_format_blank_output_witness :
  create_partition_and_format (Scripted.host Scripted.no_letter) 3 "FAT32" "GOPRO" None
    true false (Scripted.start Scripted.no_letter)
  = (Raise (mkExn IndexError "list index out of range"),
     mkSt (H := Scripted.host Scripted.no_letter) [""]
       [Spawned (NewPartitionAndFormat 3 "FAT32" "GOPRO" None true)]).
Proof.
  apply (create_partition_and_format_blank_output (H := Scripted.host Scripted.no_letter)
           3 "FAT32" "GOPRO" None true (Scripted.start Scripted.no_letter));
    reflexivity.
Defined.

Lemma verify_volume_true_only_if_witness :
  exists st',
    verify_volume (Scripted.host Scripted.card32) "E" "fat32" "GOPRO" false
      (Scripted.start Scripted.card32) = (Ok true, st')
    /\ exists out_fs, PyStr.upper out_fs = PyStr.upper "fat32".
Proof.
  destruct (verify_volume (Scripted.host Scripted.card32) "E" "fat32" "GOPRO" false
              (Scripted.start Scripted.card32)) as [[[]|e] st'] eqn:E;
    try (vm_compute in E; discriminate).
  exists st'. split; [reflexivity|].
  destruct (verify_volume_true_only_if (H := Scripted.host Scripted.card32)
              "E" "fat32" "GOPRO" false (Scripted.start Scripted.card32) st' E)
    as (_ & _ & _ & out_fs & _ & Hf).
  exists out_fs. exact Hf.
Defined.

Lemma list_disks_no_output_witness :
  list_disks Scripted.silent English false (mkSt (H := Scripted.silent) tt [])
  = (Ok [], mkSt (H := Scripted.silent) tt [Spawned GetDisk]).
Proof.
  apply (list_disks_no_output (H := Scripted.silent) English
           (mkSt (H := Scripted.silent) tt [])); reflexivity.
Defined.

(** * Shapes of the labels *)

(** X4.  Every label of the camera profile is made of capitals, digits,
    underscores and single blanks, starts with no blank, has at most 11
    characters and is not empty, in both front ends. *)
Theorem camera_label_shape (v : Variant) (x fs : string) :
  camera_shape (sanitize_label v x fs true).
Proof. exact (LabelFacts.sanitize_label_camera_shape v x fs). Qed.

(** X5.  Every label of the general profile holds none of the characters
    of [INVALID_LABEL_CHARS] (and, in the English front end, no quote),
    starts with no dot and no blank, has at most 32 characters and is not
    empty. *)
Theorem general_label_shape (v : Variant) (x fs : string) :
  general_shape v (sanitize_label v x fs false).
Proof. exact (LabelFacts.sanitize_label_general_shape v x fs). Qed.


Lemma gui_fat32_needs_32GiB_witness :
  Gui.resolve_policy (fun _ => None) "AUTO" false "Auto" (Some 32000000000)
    = Ok ("FAT32", None)
  /\ exists s, Some 32000000000 = Some s /\ s <= 32 * 1024 ^ 3.
Proof.
  split; [reflexivity|].
  apply (gui_fat32_needs_32GiB (fun _ => None) "AUTO" false "Auto" (Some 32000000000) None).
  reflexivity.
Defined.
